(** * US accidents analysis: the preprocessing pipeline of
      [us_accidents_analysis.py]

    The script is a linear sequence of pandas statements over one data frame
    [df].  This development embeds the statements between the loader and the
    plots as functions over a small model of a data frame and proves the
    properties of the stages:

    - column pruner                (source lines 171-185)
    - categorical normalizer       (source lines 193-226)
    - temporal feature extractor   (source lines 232-248)
    - missing data and duplicates  (source lines 263-300)
    - target binarizer, balancer   (source lines 318-329)

    A statement that raises in Python ([KeyError] for a missing column,
    [TypeError], [AttributeError], [IndexError]) returns [None] here.  The
    statements that only display a value or draw a plot are left out, but for
    the counts that the pruner prints.  Numbers are exact rationals, so the
    infinities of [float64] are not in the model, and letters are folded as
    ASCII. *)

From stdpp Require Import gmap strings list fin_maps numbers sorting.
From Stdlib Require Import QArith Qcanon Ascii Lqa.

Local Open Scope string_scope.
Local Open Scope Z_scope.

(** ** Cells, rows and frames *)

(** A parsed [Start_Time]: the fields that [Series.dt] reads. *)
Record Timestamp : Type := mkTimestamp {
  dt_year : Z; dt_month : Z; dt_day : Z; dt_hour : Z; dt_minute : Z
}.

(** A non-null cell.  [int64] and [float64] cells are numbers, taken as exact
    rationals; a cell of an [object] column holds a [str]. *)
Inductive value : Type :=
| VNum (q : Qc)
| VStr (s : string)
| VBool (b : bool)
| VTime (t : Timestamp).

Global Instance Timestamp_eq_dec : EqDecision Timestamp.
Proof. solve_decision. Defined.

Global Instance value_eq_dec : EqDecision value.
Proof. solve_decision. Defined.

Definition num (z : Z) : value := VNum (Q2Qc (inject_Z z)).

(** A row maps a column label to its cell; a label with no binding is a null
    cell ([NaN], [None], [NaT]).  The labels of the frame are kept apart, in
    [columns], so that a null cell and a missing column are different
    things. *)
Abbreviation row := (gmap string value).

Record DataFrame : Type := mkDataFrame {
  columns : list string;
  rows : list row
}.

(** [df[c]] and every mask built from it raise [KeyError] unless [c] is a
    label of the frame. *)
Definition require (labels : list string) (df : DataFrame) : option () :=
  guard (Forall (λ c, c ∈ columns df) labels);; Some ().

(** [series == k] for an integer literal [k]; [True == 1] and [False == 0]
    as in numpy, a null or a string is never equal. *)
Definition eq_num (k : Z) (c : option value) : bool :=
  match c with
  | Some (VNum q) => bool_decide (q = Q2Qc (inject_Z k))
  | Some (VBool b) => bool_decide ((if b then 1 else 0) = k)
  | _ => false
  end.

(** [series == s] for a string literal [s]: exact, case-sensitive. *)
Definition eq_str (s : string) (c : option value) : bool :=
  match c with
  | Some (VStr t) => bool_decide (t = s)
  | _ => false
  end.

Definition isnull (c : option value) : bool :=
  match c with None => true | Some _ => false end.

(** Writing a cell: a null written into a cell removes the binding. *)
Definition set_cell (c : string) (v : option value) (r : row) : row :=
  partial_alter (λ _, v) c r.

Definition add_label (c : string) (cols : list string) : list string :=
  if bool_decide (c ∈ cols) then cols else cols ++ [c].

(** [df[c] = series], the series given row by row. *)
Definition assign (c : string) (f : row → option value) (df : DataFrame)
  : DataFrame :=
  {| columns := add_label c (columns df);
     rows := (λ r, set_cell c (f r) r) <$> rows df |}.

(** [df.loc[mask, c] = series] *)
Definition loc_set (mask : row → bool) (c : string) (f : row → option value)
    (df : DataFrame) : DataFrame :=
  {| columns := add_label c (columns df);
     rows := (λ r, if mask r then set_cell c (f r) r else r) <$> rows df |}.

(** [df.loc[mask, c] = v] for one value [v] *)
Definition loc_set_const (c : string) (v : option value) (mask : row → bool)
  : DataFrame → DataFrame :=
  loc_set mask c (λ _, v).

(** [df.drop(labels, axis=1)]: [KeyError] when a label is not found. *)
Definition drop (labels : list string) (df : DataFrame) : option DataFrame :=
  require labels df;;
  Some {| columns := filter (λ c, c ∉ labels) (columns df);
          rows := (λ r, foldr delete r labels) <$> rows df |}.

(** [df[mask]] *)
Definition select (mask : row → bool) (df : DataFrame) : DataFrame :=
  {| columns := columns df; rows := filter (λ r, mask r = true) (rows df) |}.

(** [df[:n]] *)
Definition head (n : nat) (df : DataFrame) : DataFrame :=
  {| columns := columns df; rows := take n (rows df) |}.

(** [pd.concat([a, b])]; the two frames of the script have the same labels. *)
Definition concat (a b : DataFrame) : DataFrame :=
  {| columns := columns a; rows := rows a ++ rows b |}.

(** [df.dropna(subset=labels)]: a row goes when it is null in any of the
    labels. *)
Definition notnull_in (labels : list string) (r : row) : Prop :=
  Forall (λ c, is_Some (r !! c)) labels.

Definition dropna (labels : list string) (df : DataFrame) : option DataFrame :=
  require labels df;;
  Some {| columns := columns df; rows := filter (notnull_in labels) (rows df) |}.

(** [series.median()]: the nulls are skipped; the middle of the sorted values,
    or the mean of the two middle ones; null when there is no value.  A string
    in the column raises [TypeError]. *)
Definition as_number (v : value) : option Qc :=
  match v with
  | VNum q => Some q
  | VBool b => Some (if b then Q2Qc 1 else Q2Qc 0)
  | _ => None
  end.

Definition numbers_of (c : string) (rs : list row) : option (list Qc) :=
  mapM as_number (omap (λ r : row, r !! c) rs).

Definition median_of (xs : list Qc) : option Qc :=
  let s := merge_sort Qcle xs in
  let n := length s in
  if Nat.even n
  then a ← s !! (n / 2 - 1)%nat; b ← s !! (n / 2)%nat;
       Some ((a + b) / Q2Qc (2 # 1))%Qc
  else s !! (n / 2)%nat.

Definition median (c : string) (df : DataFrame) : option (option Qc) :=
  require [c] df;;
  xs ← numbers_of c (rows df);
  Some (median_of xs).

(** [df[c] = df[c].fillna(v)]: a null cell takes [v]; a null [v], the median
    of a column with no value, leaves the nulls. *)
Definition fill_cell (c : string) (v : option Qc) (r : row) : row :=
  match r !! c with
  | None => set_cell c (VNum <$> v) r
  | Some _ => r
  end.

Definition fillna (c : string) (v : option Qc) (df : DataFrame) : DataFrame :=
  {| columns := columns df; rows := fill_cell c v <$> rows df |}.

(** [df.drop_duplicates(keep='first')]: a row goes when an equal row came
    before it; two nulls count as equal. *)
Fixpoint keep_first `{EqDecision A} (seen : list A) (l : list A) : list A :=
  match l with
  | [] => []
  | x :: l' =>
      if bool_decide (x ∈ seen) then keep_first seen l'
      else x :: keep_first (x :: seen) l'
  end.

Definition drop_duplicates (df : DataFrame) : DataFrame :=
  {| columns := columns df; rows := keep_first [] (rows df) |}.

(** [df[c].unique().size]: the null counts as one more value. *)
Definition unique_size (c : string) (df : DataFrame) : nat :=
  length (keep_first [] ((λ r : row, r !! c) <$> rows df)).

(** ** Text matching

    [Series.str.contains(pat, case=False, na=False)] searches each string for
    the regular expression [pat] with [re.IGNORECASE].  The patterns of the
    script are alternatives of literal words separated by [|]; letters are
    compared after folding the ASCII capitals. *)

Definition lower (a : ascii) : ascii :=
  let n := nat_of_ascii a in
  if bool_decide (65 ≤ n ≤ 90)%nat then ascii_of_nat (n + 32) else a.

Fixpoint casefold (s : string) : string :=
  match s with
  | EmptyString => EmptyString
  | String a s' => String (lower a) (casefold s')
  end.

Fixpoint starts_with (p s : string) : bool :=
  match p, s with
  | EmptyString, _ => true
  | String _ _, EmptyString => false
  | String a p', String b s' => bool_decide (a = b) && starts_with p' s'
  end.

Fixpoint occurs_in (p s : string) : bool :=
  starts_with p s ||
  match s with
  | EmptyString => false
  | String _ s' => occurs_in p s'
  end.

(** The alternatives of a pattern: the pieces between the bars. *)
Fixpoint alternatives (pat : string) : list string :=
  match pat with
  | EmptyString => [EmptyString]
  | String a pat' =>
      if bool_decide (a = "|"%char) then EmptyString :: alternatives pat'
      else match alternatives pat' with
           | [] => [String a EmptyString]
           | w :: ws => String a w :: ws
           end
  end.

Definition search_nocase (pat s : string) : bool :=
  existsb (λ w, occurs_in (casefold w) (casefold s)) (alternatives pat).

(** A null gives [na], which is [False]; so does a cell that is no string. *)
Definition str_contains (pat : string) (c : option value) : bool :=
  match c with
  | Some (VStr s) => search_nocase pat s
  | _ => false
  end.

(** [np.where(mask, 1, 0)] *)
Definition where_1_0 (b : bool) : option value :=
  Some (num (if b then 1 else 0)).

(** ** Column pruner (lines 171-185) *)

Definition cat_names : list string :=
  ["Side"; "Country"; "Timezone"; "Amenity"; "Bump"; "Crossing";
   "Give_Way"; "Junction"; "No_Exit"; "Railway"; "Roundabout"; "Station";
   "Stop"; "Traffic_Calming"; "Traffic_Signal"; "Turning_Loop";
   "Sunrise_Sunset"; "Civil_Twilight"; "Nautical_Twilight";
   "Astronomical_Twilight"].

(** The loop over [cat_names] prints the number of unique values of each
    label; what it prints is returned next to the frame. *)
Definition column_pruner (df : DataFrame)
  : option (list (string * nat) * DataFrame) :=
  df ← drop ["ID"; "Description"; "Distance(mi)"; "End_Time"; "End_Lat";
             "End_Lng"] df;
  require cat_names df;;
  let printed := (λ i, (i, unique_size i df)) <$> cat_names in
  df ← drop ["Country"; "Turning_Loop"] df;
  Some (printed, df).

(** ** Categorical normalizer (lines 193-226) *)

Definition wind : row → option value := λ r, r !! "Wind_Direction".

Definition canonical_wind (df : DataFrame) : DataFrame :=
  let set_to s := loc_set_const "Wind_Direction" (Some (VStr s)) in
  let df := set_to "CALM" (λ r, eq_str "Calm" (wind r)) df in
  let df := set_to "W" (λ r, eq_str "West" (wind r) || eq_str "WSW" (wind r)
                             || eq_str "WNW" (wind r)) df in
  let df := set_to "S" (λ r, eq_str "South" (wind r) || eq_str "SSW" (wind r)
                             || eq_str "SSE" (wind r)) df in
  let df := set_to "N" (λ r, eq_str "North" (wind r) || eq_str "NNW" (wind r)
                             || eq_str "NNE" (wind r)) df in
  let df := set_to "E" (λ r, eq_str "East" (wind r) || eq_str "ESE" (wind r)
                             || eq_str "ENE" (wind r)) df in
  set_to "VAR" (λ r, eq_str "Variable" (wind r)) df.

Definition weather_condition : row → option value :=
  λ r, r !! "Weather_Condition".

Definition weather : list string :=
  ["Clear"; "Cloud"; "Rain"; "Heavy_Rain"; "Snow"; "Heavy_Snow"; "Fog"].

(** ['!'.join] of the conditions raises [TypeError] on a value that is not a
    string. *)
Definition str_or_null (c : option value) : Prop :=
  match c with
  | None | Some (VStr _) => True
  | Some _ => False
  end.

Global Instance str_or_null_dec c : Decision (str_or_null c).
Proof. destruct c as [[]|]; simpl; apply _. Defined.

(** One of the lines 209-215:
    [df[c] = np.where(df['Weather_Condition'].str.contains(pat, case=False, na=False), 1, 0)] *)
Definition weather_flag (c pat : string) : DataFrame → DataFrame :=
  assign c (λ r, where_1_0 (str_contains pat (weather_condition r))).

(** [Series.str] raises [AttributeError] unless the column holds strings:
    [read_csv] gives the type [float64] to a column in which every row is
    null.  A frame with no row has columns of type [object]. *)
Definition is_str (c : option value) : Prop :=
  match c with
  | Some (VStr _) => True
  | _ => False
  end.

Global Instance is_str_dec c : Decision (is_str c).
Proof. destruct c as [[]|]; simpl; apply _. Defined.

Definition object_column (c : string) (df : DataFrame) : Prop :=
  rows df = [] ∨ Exists (λ r : row, is_str (r !! c)) (rows df).

Definition weather_flags (df : DataFrame) : DataFrame :=
  let df := weather_flag "Clear" "Clear" df in
  let df := weather_flag "Cloud" "Cloud|Overcast" df in
  let df := weather_flag "Rain" "Rain|storm" df in
  let df := weather_flag "Heavy_Rain"
              "Heavy Rain|Rain Shower|Heavy T-Storm|Heavy Thunderstorms" df in
  let df := weather_flag "Snow" "Snow|Sleet|Ice" df in
  let df := weather_flag "Heavy_Snow"
              "Heavy Snow|Heavy Sleet|Heavy Ice Pellets|Snow Showers|Squalls"
              df in
  weather_flag "Fog" "Fog" df.

(** Lines 220-222: where the condition is null the flag takes the cell of the
    condition, which is the null. *)
Definition null_flags (df : DataFrame) : DataFrame :=
  foldl (λ df i, loc_set (λ r, isnull (weather_condition r)) i
                         weather_condition df) df weather.

Definition categorical_normalizer (df : DataFrame) : option DataFrame :=
  require ["Wind_Direction"; "Weather_Condition"] df;;
  let df := canonical_wind df in
  guard (Forall (λ r, str_or_null (weather_condition r)) (rows df));;
  guard (object_column "Weather_Condition" df);;
  let df := weather_flags df in
  let df := null_flags df in
  drop ["Weather_Condition"] df.

(** ** Temporal feature extractor (lines 232-248) *)

(** [np.cumsum] *)
Fixpoint cumsum_from (acc : Z) (l : list Z) : list Z :=
  match l with
  | [] => []
  | x :: l' => (acc + x) :: cumsum_from (acc + x) l'
  end.

Definition cumsum : list Z → list Z := cumsum_from 0.

Definition month_lengths : list Z :=
  [0; 31; 28; 31; 30; 31; 30; 31; 31; 30; 31; 30; 31].

Definition days_each_month : list Z := cumsum month_lengths.

(** [a[i]] on a numpy array: a negative index counts from the end, an index
    out of bounds raises [IndexError]. *)
Definition np_index {A} (a : list A) (i : Z) : option A :=
  let n := Z.of_nat (length a) in
  if bool_decide (0 ≤ i < n) then a !! Z.to_nat i
  else if bool_decide (- n ≤ i < 0) then a !! Z.to_nat (n + i)
  else None.

(** Lines 242-243: the entry of the table for the month, plus the day of the
    month. *)
Definition nday (starts : list Timestamp) : option (list Z) :=
  table ← mapM (λ t, np_index days_each_month (dt_month t - 1)) starts;
  Some (zip_with Z.add table (dt_day <$> starts)).

(** [Series.dt.weekday] of pandas, Monday is 0: the days since 1970-01-01, a
    Thursday, in the proleptic Gregorian calendar. *)
Definition days_from_civil (y m d : Z) : Z :=
  let y' := if bool_decide (m ≤ 2) then y - 1 else y in
  let era := y' `div` 400 in
  let yoe := y' - era * 400 in
  let mp := if bool_decide (2 < m) then m - 3 else m + 9 in
  let doy := (153 * mp + 2) `div` 5 + d - 1 in
  let doe := yoe * 365 + yoe `div` 4 - yoe `div` 100 + doy in
  era * 146097 + doe - 719468.

Definition weekday (t : Timestamp) : Z :=
  (days_from_civil (dt_year t) (dt_month t) (dt_day t) + 3) `mod` 7.

Definition start_time (r : row) : option Timestamp :=
  match r !! "Start_Time" with
  | Some (VTime t) => Some t
  | _ => None
  end.

Definition number_at (c : string) (r : row) : option Qc :=
  r !! c ≫= as_number.

(** [df[c] = values], the values given by position. *)
Definition assign_values (c : string) (vs : list value) (df : DataFrame)
  : DataFrame :=
  {| columns := add_label c (columns df);
     rows := zip_with (λ (r : row) v, <[c := v]> r) (rows df) vs |}.

Definition from_start (f : Timestamp → Z) (r : row) : option value :=
  num ∘ f <$> start_time r.

(** A null or unparsed [Start_Time] makes the month a float [NaN], which is no
    index into the table: the list comprehension raises. *)
Definition temporal_feature_extractor (df : DataFrame) : option DataFrame :=
  require ["Weather_Timestamp"; "Start_Time"] df;;
  df ← drop ["Weather_Timestamp"] df;
  starts ← mapM start_time (rows df);
  let df := assign "Year" (from_start dt_year) df in
  let df := assign "Month" (from_start dt_month) df in
  let df := assign "Weekday" (from_start weekday) df in
  days ← nday starts;
  let df := assign_values "Day" (num <$> days) df in
  let df := assign "Hour" (from_start dt_hour) df in
  let df := assign "Minute"
              (λ r, h ← number_at "Hour" r; t ← start_time r;
                    Some (VNum (h * Q2Qc (inject_Z 60)
                                + Q2Qc (inject_Z (dt_minute t)))%Qc)) df in
  Some df.

(** ** Missing data and duplicates (lines 263-300) *)

Definition low_missing : list string :=
  ["Street"; "City"; "Zipcode"; "Timezone"; "Airport_Code"; "Temperature(F)";
   "Humidity(%)"; "Pressure(in)"; "Visibility(mi)"; "Wind_Direction";
   "Wind_Speed(mph)"; "Sunrise_Sunset"; "Civil_Twilight"; "Nautical_Twilight";
   "Astronomical_Twilight"; "Clear"; "Cloud"; "Rain"; "Heavy_Rain"; "Snow";
   "Heavy_Snow"; "Fog"].

(** [df[c] = df[c].fillna(df[c].median())] *)
Definition impute_median (c : string) (df : DataFrame) : option DataFrame :=
  m ← median c df;
  Some (fillna c m df).

(** Lines 274-300: the deletion of rows, the two imputations, the removal of
    duplicates.  [reset_index] renumbers the rows; the rows of the model have
    their position and no other index. *)
Definition resolve_rows (df : DataFrame) : option DataFrame :=
  df ← dropna low_missing df;
  df ← impute_median "Precipitation(in)" df;
  df ← impute_median "Wind_Chill(F)" df;
  Some (drop_duplicates df).

(** The stage, from the drop of [Number] at line 263. *)
Definition missing_data_resolver (df : DataFrame) : option DataFrame :=
  df ← drop ["Number"] df;
  resolve_rows df.

(** ** Target binarizer and balancer (lines 318-329) *)

Definition target_binarizer (df : DataFrame) : option DataFrame :=
  let df := assign "Severity4" (λ _, Some (num 0)) df in
  require ["Severity"] df;;
  let df := loc_set_const "Severity4" (Some (num 1))
              (λ r, eq_num 4 (r !! "Severity")) df in
  drop ["Severity"] df.

Definition cap : nat := Z.to_nat 110000.

Definition balancer (df : DataFrame) : option DataFrame :=
  require ["Severity4"] df;;
  let df1 := head cap (select (λ r, eq_num 0 (r !! "Severity4")) df) in
  let df2 := head cap (select (λ r, eq_num 1 (r !! "Severity4")) df) in
  Some (concat df1 df2).

Definition target_binarizer_balancer (df : DataFrame) : option DataFrame :=
  target_binarizer df ≫= balancer.

(** The number of rows of a class. *)
Definition count_label (c : string) (k : Z) (df : DataFrame) : Z :=
  Z.of_nat (length (filter (λ r : row, eq_num k (r !! c) = true) (rows df))).

(** ** Words of the specification *)

(** The days of a year that is no leap year before the first of month [m]. *)
Definition non_leap_days_before (m : Z) : Z :=
  foldr Z.add 0
    (take (Z.to_nat (m - 1)) [31; 28; 31; 30; 31; 30; 31; 31; 30; 31; 30; 31]).

(** A row whose start is a timestamp of a month from 1 to 12. *)
Definition timed (r : row) : Prop :=
  ∃ t, start_time r = Some t ∧ 1 ≤ dt_month t ≤ 12.

(** The fixed table of the wind directions and the six points it maps to. *)
Definition wind_table : list (string * string) :=
  [("Calm", "CALM");
   ("West", "W"); ("WSW", "W"); ("WNW", "W");
   ("South", "S"); ("SSW", "S"); ("SSE", "S");
   ("North", "N"); ("NNW", "N"); ("NNE", "N");
   ("East", "E"); ("ESE", "E"); ("ENE", "E");
   ("Variable", "VAR")].

Definition wind_points : list string := ["N"; "S"; "E"; "W"; "CALM"; "VAR"].

(** [w] occurs in [s] when the case of the letters is ignored. *)
Definition contains_nocase (w s : string) : Prop :=
  ∃ pre mid post, s = pre +:+ mid +:+ post ∧ casefold mid = casefold w.

(** A frame from the list of its rows, each row a list of cells. *)
Definition frame (cols : list string) (rs : list (list (string * value)))
  : DataFrame :=
  {| columns := cols; rows := list_to_map <$> rs |}.

(** ** Sample frames *)

Definition march_first : DataFrame :=
  frame ["Start_Time"; "Weather_Timestamp"]
    [[("Start_Time", VTime (mkTimestamp 2021 3 1 8 30))];
     [("Start_Time", VTime (mkTimestamp 2020 3 1 17 5))]].

Definition winds : DataFrame :=
  frame ["Wind_Direction"]
    [[("Wind_Direction", VStr "WSW")]; [("Wind_Direction", VStr "calm")];
     [("Wind_Direction", VStr "NW")]; []].

Definition severities : DataFrame :=
  frame ["Severity"; "State"]
    [[("Severity", num 1); ("State", VStr "OH")];
     [("Severity", num 2); ("State", VStr "CA")];
     [("Severity", num 4); ("State", VStr "TX")];
     [("Severity", num 3)]].

(** Three normal rows and one serious row, the label already made. *)
Definition three_to_one : DataFrame :=
  frame ["State"; "Severity4"]
    [[("Severity4", num 0); ("State", VStr "OH")];
     [("Severity4", num 0); ("State", VStr "CA")];
     [("Severity4", num 1); ("State", VStr "TX")];
     [("Severity4", num 0)]].

(** The labels that the pruner drops, at line 171 and at line 185. *)
Definition pruned : list string :=
  ["ID"; "Description"; "Distance(mi)"; "End_Time"; "End_Lat"; "End_Lng";
   "Country"; "Turning_Loop"].

(** What the pruner needs of its input: the labels it drops and the labels
    whose unique values it counts. *)
Definition pruner_input (df : DataFrame) : Prop :=
  Forall (λ c, c ∈ columns df)
    (["ID"; "Description"; "Distance(mi)"; "End_Time"; "End_Lat"; "End_Lng"]
     ++ cat_names).

(** Two accidents on the right side of the road. *)
Definition right_side : DataFrame :=
  frame (["ID"; "Description"; "Distance(mi)"; "End_Time"; "End_Lat";
          "End_Lng"; "State"] ++ cat_names)
    [[("ID", VStr "A-1"); ("State", VStr "OH"); ("Side", VStr "R");
      ("Country", VStr "US"); ("Timezone", VStr "US/Eastern");
      ("Turning_Loop", VBool false); ("Sunrise_Sunset", VStr "Night")];
     [("ID", VStr "A-2"); ("State", VStr "CA"); ("Side", VStr "R");
      ("Country", VStr "US"); ("Timezone", VStr "US/Pacific");
      ("Turning_Loop", VBool false); ("Sunrise_Sunset", VStr "Day")]].


(** What a column to impute may hold: numbers and nulls. *)
Definition numeric_or_null (c : option value) : Prop :=
  match c with
  | None => True
  | Some v => is_Some (as_number v)
  end.

Global Instance numeric_or_null_dec c : Decision (numeric_or_null c).
Proof. destruct c as [v|]; simpl; apply _. Defined.

(** What lines 274-300 need of their input: the labels they name, and
    numbers or nulls in the two columns to impute, in the rows that the
    deletion keeps. *)
Definition resolve_rows_input (df : DataFrame) : Prop :=
  Forall (λ c, c ∈ columns df)
    ("Precipitation(in)" :: "Wind_Chill(F)" :: low_missing) ∧
  Forall (λ r : row, notnull_in low_missing r →
                     numeric_or_null (r !! "Precipitation(in)") ∧
                     numeric_or_null (r !! "Wind_Chill(F)")) (rows df).

(** After the imputation a column is settled: it has a value in every row, or
    in none. *)
Definition settled (c : string) (rs : list row) : Prop :=
  Forall (λ r : row, is_Some (r !! c)) rs ∨ Forall (λ r : row, r !! c = None) rs.

(** The rows that the deletion of line 274 keeps. *)
Definition kept_rows (df : DataFrame) : DataFrame :=
  {| columns := columns df;
     rows := filter (notnull_in low_missing) (rows df) |}.

(** The output of lines 274-300 when the two medians are [mP] and [mW]. *)
Definition resolved_with (df : DataFrame) (mP mW : option Qc) : DataFrame :=
  drop_duplicates
    (fillna "Wind_Chill(F)" mW (fillna "Precipitation(in)" mP (kept_rows df))).


(** A row with a value in each of the labels of [low_missing], and the cells
    [cells] besides. *)
Definition complete_row (cells : list (string * value)) : list (string * value) :=
  (cells ++ ((λ c, (c, VStr "-")) <$> low_missing))%list.

(** One accident with no county; one with no precipitation, twice; one with
    no street. *)
Definition accidents : DataFrame :=
  frame ("Number" :: "Severity" :: "County" :: "Precipitation(in)"
         :: "Wind_Chill(F)" :: low_missing)
    [complete_row [("Number", num 12); ("Severity", num 2);
                   ("Precipitation(in)", num 3); ("Wind_Chill(F)", num 40)];
     complete_row [("Number", num 7); ("Severity", num 4);
                   ("County", VStr "Franklin"); ("Wind_Chill(F)", num 20)];
     complete_row [("Severity", num 4);
                   ("County", VStr "Franklin"); ("Wind_Chill(F)", num 20)];
     [("Severity", num 3); ("County", VStr "Cook");
      ("Precipitation(in)", num 9); ("City", VStr "Chicago")]].

(** The flags of lines 209-215 with their patterns. *)
Definition flag_patterns : list (string * string) :=
  [("Clear", "Clear"); ("Cloud", "Cloud|Overcast"); ("Rain", "Rain|storm");
   ("Heavy_Rain", "Heavy Rain|Rain Shower|Heavy T-Storm|Heavy Thunderstorms");
   ("Snow", "Snow|Sleet|Ice");
   ("Heavy_Snow",
    "Heavy Snow|Heavy Sleet|Heavy Ice Pellets|Snow Showers|Squalls");
   ("Fog", "Fog")].

(** What the normalizer needs of its input: the two columns, no condition
    that is a number, a boolean or a timestamp, and a condition that is a
    string in some row. *)
Definition normalizer_input (df : DataFrame) : Prop :=
  "Wind_Direction" ∈ columns df ∧ "Weather_Condition" ∈ columns df ∧
  Forall (λ r, str_or_null (weather_condition r)) (rows df) ∧
  object_column "Weather_Condition" df.

Definition weathers : DataFrame :=
  frame ["Wind_Direction"; "Weather_Condition"; "State"]
    [[("Wind_Direction", VStr "Calm"); ("Weather_Condition", VStr "Light Rain")];
     [("Wind_Direction", VStr "SSW"); ("State", VStr "OH")];
     [("Weather_Condition", VStr "Heavy T-Storm"); ("State", VStr "CA")];
     [("Weather_Condition", VStr "Mostly Cloudy")]].

(** One statement of lines 193-198, seen from the cell. *)
Definition recode (olds : list string) (new : string) (c : option value)
  : option value :=
  if existsb (λ o, eq_str o c) olds then Some (VStr new) else c.

Definition recode_wind (c : option value) : option value :=
  recode ["Variable"] "VAR"
    (recode ["East"; "ESE"; "ENE"] "E"
      (recode ["North"; "NNW"; "NNE"] "N"
        (recode ["South"; "SSW"; "SSE"] "S"
          (recode ["West"; "WSW"; "WNW"] "W"
            (recode ["Calm"] "CALM" c))))).

(** Rewriting the cell of a row with what is known of the row. *)
Ltac follow_cell :=
  repeat match goal with
  | H : ?r1 !! ?c = _ |- context [?r1 !! ?c] => rewrite H
  | H : ∀ c', _ ≠ c' → ?r1 !! c' = _ |- context [?r1 !! ?c] =>
      rewrite (H c) by done
  end.

(** ** Further words and sample frames *)

Definition winter : DataFrame :=
  frame ["Wind_Direction"; "Weather_Condition"]
    [[("Weather_Condition", VStr "Squalls / Windy")];
     [("Weather_Condition", VStr "Heavy Snow")];
     [("Weather_Condition", VStr "Light Snow Showers")]].

(** The labels that the extractor writes. *)
Definition time_features : list string :=
  ["Year"; "Month"; "Weekday"; "Day"; "Hour"; "Minute"].

(** A start with an hour from 0 to 23 and a minute from 0 to 59. *)
Definition clocked (t : Timestamp) : Prop :=
  0 ≤ dt_hour t ≤ 23 ∧ 0 ≤ dt_minute t ≤ 59.

Definition unparsed_start : DataFrame :=
  frame ["Start_Time"; "Weather_Timestamp"]
    [[("Start_Time", VTime (mkTimestamp 2021 3 1 8 30))];
     [("Weather_Timestamp", VTime (mkTimestamp 2021 3 1 8 0))]].

(** A date of a year that is no leap year: the day is within the length of
    the month in the table of line 240. *)
Definition in_common_year (t : Timestamp) : Prop :=
  1 ≤ dt_month t ≤ 12 ∧
  1 ≤ dt_day t ≤ default 0 (month_lengths !! Z.to_nat (dt_month t)).


(** The row [r'] is the row [r] after the imputation: every value of [r] is
    still there, and outside the two imputed columns nothing else is. *)
Definition filled_from (r r' : row) : Prop :=
  (∀ c v, r !! c = Some v → r' !! c = Some v) ∧
  ∀ c, c ≠ "Precipitation(in)" → c ≠ "Wind_Chill(F)" → r' !! c = r !! c.

(** The row after lines 318-320. *)
Definition binarized (r : row) : row :=
  delete "Severity"
    (<["Severity4" := num (if eq_num 4 (r !! "Severity") then 1 else 0)]> r).

(** The number of rows that a mask selects. *)
Definition count_rows (mask : row → bool) (df : DataFrame) : Z :=
  Z.of_nat (length (filter (λ r : row, mask r = true) (rows df))).

(** ** The script from the raw frame to the balanced sample (lines 171-329)

    The statements of lines 171-329 that change [df], in their order.  The
    frame before the balancing is returned with the balanced one: line 434
    reads it. *)
Definition preprocess (df : DataFrame) : option (DataFrame * DataFrame) :=
  '(_, df) ← column_pruner df;
  df ← categorical_normalizer df;
  df ← temporal_feature_extractor df;
  df ← missing_data_resolver df;
  df ← target_binarizer df;
  df_bl ← balancer df;
  Some (df, df_bl).

(** ** Feature selection on the balanced sample (lines 432-480) *)

Definition fre_list : list string :=
  ["Street"; "City"; "County"; "Zipcode"; "Airport_Code"; "State"].

(** [df[c].nunique()]: the nulls are not counted. *)
Definition nunique (c : string) (df : DataFrame) : nat :=
  length (keep_first [] (omap (λ r : row, r !! c) (rows df))).

(** The loop of lines 433-434 reads [df], the three drops act on [df_bl]. *)
Definition feature_selection (df df_bl : DataFrame)
  : option (list (string * nat) * DataFrame) :=
  require fre_list df;;
  let printed := (λ i, (i, nunique i df)) <$> fre_list in
  df_bl ← drop fre_list df_bl;
  df_bl ← drop ["Heavy_Rain"; "Heavy_Snow"; "Fog"] df_bl;
  df_bl ← drop ["Wind_Direction"] df_bl;
  Some (printed, df_bl).

(** The ten labels that lines 442-480 take out of the balanced sample. *)
Definition unselected : list string :=
  (fre_list ++ ["Heavy_Rain"; "Heavy_Snow"; "Fog"; "Wind_Direction"])%list.

(** The 47 columns of the dataset, as lines 24-126 list them. *)
Definition raw_labels : list string :=
  ["ID"; "Severity"; "Start_Time"; "End_Time"; "Start_Lat"; "Start_Lng";
   "End_Lat"; "End_Lng"; "Distance(mi)"; "Description";
   "Number"; "Street"; "Side"; "City"; "County"; "State"; "Zipcode";
   "Country"; "Timezone";
   "Airport_Code"; "Weather_Timestamp"; "Temperature(F)"; "Wind_Chill(F)";
   "Humidity(%)"; "Pressure(in)"; "Visibility(mi)"; "Wind_Direction";
   "Wind_Speed(mph)"; "Precipitation(in)"; "Weather_Condition";
   "Amenity"; "Bump"; "Crossing"; "Give_Way"; "Junction"; "No_Exit";
   "Railway"; "Roundabout"; "Station"; "Stop"; "Traffic_Calming";
   "Traffic_Signal"; "Turning_Loop";
   "Sunrise_Sunset"; "Civil_Twilight"; "Nautical_Twilight";
   "Astronomical_Twilight"].


(** An accident of the dataset. *)
Definition raw_row (severity : Z) (t : Timestamp)
    (condition direction : option string) (precipitation : option Z)
  : list (string * value) :=
  ([("ID", VStr "A-1"); ("Severity", num severity); ("Start_Time", VTime t);
    ("Weather_Timestamp", VTime t); ("Number", num 7);
    ("Street", VStr "I-70 E"); ("Side", VStr "R"); ("City", VStr "Dayton");
    ("County", VStr "Montgomery"); ("State", VStr "OH");
    ("Zipcode", VStr "45424"); ("Country", VStr "US");
    ("Timezone", VStr "US/Eastern"); ("Airport_Code", VStr "KFFO");
    ("Temperature(F)", num 37); ("Humidity(%)", num 91);
    ("Pressure(in)", num 29); ("Visibility(mi)", num 10);
    ("Wind_Speed(mph)", num 3); ("Turning_Loop", VBool false);
    ("Sunrise_Sunset", VStr "Night"); ("Civil_Twilight", VStr "Night");
    ("Nautical_Twilight", VStr "Night");
    ("Astronomical_Twilight", VStr "Day")]
   ++ from_option (λ s, [("Weather_Condition", VStr s)]) [] condition
   ++ from_option (λ s, [("Wind_Direction", VStr s)]) [] direction
   ++ from_option (λ z, [("Precipitation(in)", num z)]) [] precipitation)%list.

(** Four accidents: one of severity 4 in heavy rain, one with no condition,
    one with no wind direction, one with no precipitation. *)
Definition raw_accidents : DataFrame :=
  frame raw_labels
    [raw_row 4 (mkTimestamp 2021 3 1 8 30) (Some "Heavy Rain") (Some "SSW")
       (Some 2);
     raw_row 2 (mkTimestamp 2020 3 1 23 59) None (Some "Calm") (Some 0);
     raw_row 3 (mkTimestamp 2019 7 4 12 0) (Some "Fair") None (Some 0);
     raw_row 2 (mkTimestamp 2016 12 31 0 5) (Some "Light Snow") (Some "North")
       None].



(** Two rows of a balanced sample, with the labels of the selection. *)
Definition balanced : DataFrame :=
  frame (unselected ++ ["Rain"; "Year"; "Severity4"])
    [[("Street", VStr "I-70 E"); ("City", VStr "Dayton"); ("State", VStr "OH");
      ("Heavy_Rain", num 0); ("Rain", num 1); ("Wind_Direction", VStr "S");
      ("Year", num 2021); ("Severity4", num 0)];
     [("Street", VStr "I-75 S"); ("City", VStr "Dayton"); ("State", VStr "OH");
      ("Heavy_Rain", num 1); ("Rain", num 1); ("Wind_Direction", VStr "CALM");
      ("Year", num 2016); ("Severity4", num 1)]].


(** ** Frames: basic facts *)

Lemma require_Some labels df :
  Forall (λ c, c ∈ columns df) labels → require labels df = Some ().
Proof. intros H. unfold require. by rewrite option_guard_True. Qed.

Lemma require_inv labels df u :
  require labels df = Some u → Forall (λ c, c ∈ columns df) labels.
Proof. unfold require. intros H. by case_guard. Qed.

Lemma lookup_set_cell_eq c v (r : row) : set_cell c v r !! c = v.
Proof. unfold set_cell. by rewrite lookup_partial_alter_eq. Qed.

Lemma lookup_set_cell_ne c c' v (r : row) :
  c ≠ c' → set_cell c v r !! c' = r !! c'.
Proof. intros. unfold set_cell. by rewrite lookup_partial_alter_ne. Qed.

Lemma lookup_delete_labels_elem labels c (r : row) :
  c ∈ labels → foldr delete r labels !! c = None.
Proof.
  induction labels as [|l labels IH]; intros Hin; [by inversion Hin|].
  cbn [foldr]. destruct (decide (l = c)) as [->|Hne].
  - apply lookup_delete_eq.
  - rewrite lookup_delete_ne by done. apply IH.
    apply elem_of_cons in Hin as [->|]; done.
Qed.

Lemma lookup_delete_labels_not_elem labels c (r : row) :
  c ∉ labels → foldr delete r labels !! c = r !! c.
Proof.
  induction labels as [|l labels IH]; intros Hout; [done|].
  apply not_elem_of_cons in Hout as [Hne Hout].
  cbn [foldr]. rewrite lookup_delete_ne by done. by apply IH.
Qed.

Lemma elem_of_add_label c c' cols :
  c' ∈ add_label c cols ↔ c' = c ∨ c' ∈ cols.
Proof.
  unfold add_label. case_bool_decide.
  - split; [auto|]. by intros [->|].
  - rewrite elem_of_app, list_elem_of_singleton. tauto.
Qed.

Lemma rows_assign c f df i :
  rows (assign c f df) !! i = (λ r, set_cell c (f r) r) <$> rows df !! i.
Proof. simpl. apply list_lookup_fmap. Qed.

Lemma rows_loc_set mask c f df i :
  rows (loc_set mask c f df) !! i
  = (λ r, if mask r then set_cell c (f r) r else r) <$> rows df !! i.
Proof. simpl. apply list_lookup_fmap. Qed.

Lemma drop_Some labels df :
  Forall (λ c, c ∈ columns df) labels →
  drop labels df
  = Some {| columns := filter (λ c, c ∉ labels) (columns df);
            rows := (λ r, foldr delete r labels) <$> rows df |}.
Proof. intros H. unfold drop. by rewrite require_Some. Qed.

Lemma drop_inv labels df out :
  drop labels df = Some out →
  Forall (λ c, c ∈ columns df) labels ∧
  out = {| columns := filter (λ c, c ∉ labels) (columns df);
           rows := (λ r, foldr delete r labels) <$> rows df |}.
Proof.
  unfold drop. intros H.
  destruct (require labels df) as [[]|] eqn:E; simplify_eq/=.
  split; [by eapply require_inv|done].
Qed.

(** ** Temporal feature extractor: the day of the year *)

Lemma table_entry m :
  1 ≤ m ≤ 12 → np_index days_each_month (m - 1) = Some (non_leap_days_before m).
Proof.
  intros Hm.
  assert (m = 1 ∨ m = 2 ∨ m = 3 ∨ m = 4 ∨ m = 5 ∨ m = 6 ∨ m = 7 ∨ m = 8
          ∨ m = 9 ∨ m = 10 ∨ m = 11 ∨ m = 12) as Hcases by lia.
  repeat (destruct Hcases as [->|Hcases]; [reflexivity|]).
  by subst.
Qed.

Lemma nday_spec starts :
  Forall (λ t, 1 ≤ dt_month t ≤ 12) starts →
  nday starts
  = Some ((λ t, non_leap_days_before (dt_month t) + dt_day t) <$> starts).
Proof.
  intros Hvalid. unfold nday.
  assert (Htable : mapM (λ t, np_index days_each_month (dt_month t - 1)) starts
                   = Some ((λ t, non_leap_days_before (dt_month t)) <$> starts)).
  { apply mapM_Some_2. induction Hvalid as [|t ts Ht _ IH]; constructor; [|done].
    by apply table_entry. }
  rewrite Htable. simpl. f_equal.
  clear. induction starts as [|t ts IH]; [done|]. by rewrite !fmap_cons, <- IH.
Qed.

Lemma start_time_drop_weather_timestamp (r : row) :
  start_time (foldr delete r ["Weather_Timestamp"]) = start_time r.
Proof.
  unfold start_time. rewrite lookup_delete_labels_not_elem; [done|].
  by rewrite list_elem_of_singleton.
Qed.

Lemma start_time_set_cell c v (r : row) :
  c ≠ "Start_Time" → start_time (set_cell c v r) = start_time r.
Proof. intros. unfold start_time. by rewrite lookup_set_cell_ne. Qed.

Lemma timed_starts rs :
  Forall timed rs →
  ∃ starts, Forall2 (λ r t, start_time r = Some t) rs starts ∧
            Forall (λ t, 1 ≤ dt_month t ≤ 12) starts.
Proof.
  induction 1 as [|r rs (t & Ht & Hm) _ (ts & IH1 & IH2)].
  - exists []. by split.
  - exists (t :: ts). split; by constructor.
Qed.

(** C4: the extractor succeeds on a frame whose start times are timestamps,
    and the [Day] of a row is the entry of the cumulative table of a year
    that is no leap year for the month of its start, plus the day of the
    month, whatever the year. *)
Theorem day_is_table_entry_plus_day_of_month (df : DataFrame) :
  "Weather_Timestamp" ∈ columns df →
  "Start_Time" ∈ columns df →
  Forall timed (rows df) →
  ∃ out, temporal_feature_extractor df = Some out ∧
    "Day" ∈ columns out ∧
    ∀ i r t, rows df !! i = Some r → start_time r = Some t →
      ∃ r' : row, rows out !! i = Some r' ∧
        r' !! "Day" = Some (num (non_leap_days_before (dt_month t) + dt_day t)).
Proof.
  intros Hwt Hst Htimed. unfold temporal_feature_extractor.
  rewrite require_Some by (repeat constructor; done).
  rewrite drop_Some by (repeat constructor; done). cbn [mbind option_bind].
  destruct (timed_starts _ Htimed) as (starts & Hstarts & Hvalid).
  rewrite (proj2 (mapM_Some _ _ starts)); cycle 1.
  { apply Forall2_fmap_l. eapply Forall2_impl; [exact Hstarts|].
    intros r t Hrt. unfold compose.
    by rewrite start_time_drop_weather_timestamp. }
  cbn [mbind option_bind]. rewrite nday_spec by done. cbn [mbind option_bind].
  eexists. split; [reflexivity|]. split.
  { cbn [columns assign assign_values]. rewrite !elem_of_add_label. auto. }
  intros i r t Hr Ht.
  destruct (Forall2_lookup_l _ _ _ _ _ Hstarts Hr) as (t' & Ht' & Hrt').
  assert (t' = t) as -> by congruence.
  rewrite !rows_assign. cbn [rows assign_values].
  rewrite lookup_zip_with, !list_lookup_fmap, !rows_assign. cbn [rows].
  rewrite list_lookup_fmap, Hr, Ht'. cbn -[set_cell num].
  eexists. split; [reflexivity|].
  rewrite !lookup_set_cell_ne by done. by rewrite lookup_insert_eq.
Qed.

Lemma day_is_table_entry_plus_day_of_month_witness :
  ∃ out, temporal_feature_extractor march_first = Some out ∧
    "Day" ∈ columns out ∧
    ∀ i r t, rows march_first !! i = Some r → start_time r = Some t →
      ∃ r' : row, rows out !! i = Some r' ∧
        r' !! "Day" = Some (num (non_leap_days_before (dt_month t) + dt_day t)).
Proof.
  apply (day_is_table_entry_plus_day_of_month march_first).
  - apply (bool_decide_unpack _). vm_compute. exact I.
  - apply (bool_decide_unpack _). vm_compute. exact I.
  - repeat constructor; eexists; (split; [vm_compute; reflexivity|simpl; lia]).
Defined.

(** 2021-03-01 is day 60 = 31 + 28 + 1, and so is 2020-03-01, in a leap
    year. *)
Example nday_march_first :
  nday [mkTimestamp 2021 3 1 8 30; mkTimestamp 2020 3 1 17 5] = Some [60; 60].
Proof. reflexivity. Qed.

Example day_column_march_first :
  (λ df, (λ r : row, r !! "Day") <$> rows df)
    <$> temporal_feature_extractor march_first
  = Some [Some (num 60); Some (num 60)].
Proof. vm_compute. reflexivity. Qed.

(** ** Categorical normalizer: the wind direction *)

Lemma loc_wind olds new (mask : row → bool) df i c :
  (∀ r, mask r = existsb (λ o, eq_str o (wind r)) olds) →
  wind <$> rows df !! i = Some c →
  wind <$> rows (loc_set_const "Wind_Direction" (Some (VStr new)) mask df) !! i
  = Some (recode olds new c).
Proof.
  intros Hmask Hc. unfold loc_set_const. rewrite rows_loc_set.
  destruct (rows df !! i) as [r|]; [|done].
  injection Hc as <-. cbn [fmap option_fmap option_map]. f_equal.
  rewrite Hmask. unfold recode. destruct (existsb _ _); [|done].
  apply lookup_set_cell_eq.
Qed.

Lemma canonical_wind_row df i (r : row) :
  rows df !! i = Some r →
  ∃ r' : row, rows (canonical_wind df) !! i = Some r' ∧
              wind r' = recode_wind (wind r).
Proof.
  intros Hr.
  assert (wind <$> rows (canonical_wind df) !! i = Some (recode_wind (wind r)))
    as Hwind.
  { unfold canonical_wind, recode_wind.
    repeat (apply loc_wind;
            [intros r0; cbn [existsb]; by rewrite orb_false_r, ?orb_assoc|]).
    by rewrite Hr. }
  destruct (rows (canonical_wind df) !! i) as [r'|]; [|done].
  exists r'. split; [done|]. by injection Hwind.
Qed.

Lemma recode_miss olds new s :
  Forall (λ o, s ≠ o) olds → recode olds new (Some (VStr s)) = Some (VStr s).
Proof.
  unfold recode. induction 1 as [|o olds Ho _ IH]; [done|].
  cbn [existsb eq_str] in *. by rewrite bool_decide_eq_false_2.
Qed.

Lemma recode_wind_string s :
  (∃ t, (s, t) ∈ wind_table ∧ t ∈ wind_points ∧
        recode_wind (Some (VStr s)) = Some (VStr t)) ∨
  ((s ∉ fst <$> wind_table) ∧ recode_wind (Some (VStr s)) = Some (VStr s)).
Proof.
  assert (Hcovered : ∀ t, bool_decide ((s, t) ∈ wind_table ∧ t ∈ wind_points) = true →
            recode_wind (Some (VStr s)) = Some (VStr t) →
            ∃ t, (s, t) ∈ wind_table ∧ t ∈ wind_points ∧
                 recode_wind (Some (VStr s)) = Some (VStr t)).
  { intros t Ht%bool_decide_eq_true_1 Hrec. exists t. tauto. }
  destruct (decide (s ∈ (fst <$> wind_table))) as [Hin|Hout].
  - left. cbn in Hin.
    repeat (apply elem_of_cons in Hin as [->|Hin];
            [eapply Hcovered; cycle 1; [reflexivity|by vm_compute]|]).
    by apply elem_of_nil in Hin.
  - right. split; [done|]. cbn in Hout.
    repeat (apply not_elem_of_cons in Hout as [? Hout]).
    unfold recode_wind.
    by rewrite !recode_miss by (repeat constructor; done).
Qed.

Lemma recode_wind_other c : (∀ s, c ≠ Some (VStr s)) → recode_wind c = c.
Proof. intros Hc. destruct c as [[q|s|b|t]|]; try done. by destruct (Hc s). Qed.

(** C5: after the canonicalization a wind direction that the table covers is
    the point the table gives, one of N, S, E, W, CALM and VAR; a string that
    the table does not hold, compared letter by letter with the case kept, and
    any other cell are left as they were. *)
Theorem wind_direction_canonical (df : DataFrame) (i : nat) (r : row) :
  rows df !! i = Some r →
  ∃ r' : row, rows (canonical_wind df) !! i = Some r' ∧
    (∀ s, wind r = Some (VStr s) →
       (∃ t, (s, t) ∈ wind_table ∧ t ∈ wind_points ∧
             wind r' = Some (VStr t)) ∨
       ((s ∉ fst <$> wind_table) ∧ wind r' = Some (VStr s))) ∧
    ((∀ s, wind r ≠ Some (VStr s)) → wind r' = wind r).
Proof.
  intros Hr. destruct (canonical_wind_row df i r Hr) as (r' & Hr' & Hwind).
  exists r'. split; [done|]. rewrite Hwind. split.
  - intros s ->. apply recode_wind_string.
  - apply recode_wind_other.
Qed.

Lemma wind_direction_canonical_witness :
  ∃ r' : row, rows (canonical_wind winds) !! 0%nat = Some r' ∧
    (∀ s, wind (list_to_map [("Wind_Direction", VStr "WSW")]) = Some (VStr s) →
       (∃ t, (s, t) ∈ wind_table ∧ t ∈ wind_points ∧
             wind r' = Some (VStr t)) ∨
       ((s ∉ fst <$> wind_table) ∧ wind r' = Some (VStr s))) ∧
    ((∀ s, wind (list_to_map [("Wind_Direction", VStr "WSW")]) ≠ Some (VStr s)) →
     wind r' = wind (list_to_map [("Wind_Direction", VStr "WSW")])).
Proof.
  apply (wind_direction_canonical winds 0). reflexivity.
Defined.

(** The comparison keeps the case: [calm] is not [Calm]; [NW] is in no
    statement; a null stays a null. *)
Example wind_of_sample :
  (λ r : row, r !! "Wind_Direction") <$> rows (canonical_wind winds)
  = [Some (VStr "W"); Some (VStr "calm"); Some (VStr "NW"); None].
Proof. vm_compute. reflexivity. Qed.

(** ** Target binarizer *)

Lemma num_inj a b : num a = num b → a = b.
Proof.
  unfold num. intros H.
  assert (Q2Qc (inject_Z a) = Q2Qc (inject_Z b)) as Hq by congruence.
  apply Q2Qc_eq_iff in Hq. by apply inject_Z_injective.
Qed.

Lemma eq_num_num k z : eq_num k (Some (num z)) = bool_decide (z = k).
Proof.
  unfold eq_num, num. apply bool_decide_ext. split.
  - intros H. apply Q2Qc_eq_iff in H. by apply inject_Z_injective.
  - by intros ->.
Qed.

(** C9: the binarizer succeeds on a frame with a [Severity] column; its
    output has the label [Severity4] and no label [Severity]; the
    [Severity4] of a row is 1 when its [Severity] was 4 and 0 when it was not,
    hence 0 for the severities 1, 2 and 3. *)
Theorem severity4_of_severity (df : DataFrame) :
  "Severity" ∈ columns df →
  ∃ out, target_binarizer df = Some out ∧
    ("Severity" ∉ columns out) ∧ "Severity4" ∈ columns out ∧
    length (rows out) = length (rows df) ∧
    ∀ i (r : row), rows df !! i = Some r →
      ∃ r' : row, rows out !! i = Some r' ∧
        r' !! "Severity" = None ∧
        r' !! "Severity4"
        = Some (num (if eq_num 4 (r !! "Severity") then 1 else 0)) ∧
        ∀ k, r !! "Severity" = Some (num k) →
             r' !! "Severity4" = Some (num (if decide (k = 4) then 1 else 0)).
Proof.
  intros Hsev. unfold target_binarizer.
  rewrite require_Some; cycle 1.
  { repeat constructor. cbn [columns assign]. apply elem_of_add_label. auto. }
  cbn [mbind option_bind]. rewrite drop_Some; cycle 1.
  { repeat constructor. cbn [columns assign loc_set_const loc_set].
    rewrite !elem_of_add_label. auto. }
  eexists. split; [reflexivity|].
  cbn [columns rows assign loc_set loc_set_const].
  split; [|split; [|split]].
  - rewrite list_elem_of_filter. intros [Hne _]. apply Hne. by left.
  - rewrite list_elem_of_filter, !elem_of_add_label.
    split; [|auto]. by rewrite list_elem_of_singleton.
  - by rewrite !length_fmap.
  - intros i r Hr.
    rewrite !list_lookup_fmap, Hr. cbn [fmap option_fmap option_map].
    eexists. split; [reflexivity|].
    rewrite lookup_delete_labels_elem by by left.
    rewrite lookup_delete_labels_not_elem by by rewrite list_elem_of_singleton.
    rewrite (lookup_set_cell_ne "Severity4" "Severity") by done.
    assert (∀ b : bool,
      (if b then set_cell "Severity4" (Some (num 1))
                  (set_cell "Severity4" (Some (num 0)) r)
       else set_cell "Severity4" (Some (num 0)) r) !! "Severity4"
      = Some (num (if b then 1 else 0))) as Hlabel.
    { intros []; apply lookup_set_cell_eq. }
    rewrite Hlabel. split; [done|]. split; [done|].
    intros k ->. rewrite eq_num_num. by case_bool_decide; case_decide.
Qed.

Lemma severity4_of_severity_witness :
  ∃ out, target_binarizer severities = Some out ∧
    ("Severity" ∉ columns out) ∧ "Severity4" ∈ columns out ∧
    length (rows out) = length (rows severities) ∧
    ∀ i (r : row), rows severities !! i = Some r →
      ∃ r' : row, rows out !! i = Some r' ∧
        r' !! "Severity" = None ∧
        r' !! "Severity4"
        = Some (num (if eq_num 4 (r !! "Severity") then 1 else 0)) ∧
        ∀ k, r !! "Severity" = Some (num k) →
             r' !! "Severity4" = Some (num (if decide (k = 4) then 1 else 0)).
Proof.
  apply (severity4_of_severity severities).
  apply (bool_decide_unpack _). vm_compute. exact I.
Defined.

Example severity4_of_sample :
  (λ df, (columns df, (λ r : row, r !! "Severity4") <$> rows df))
    <$> target_binarizer severities
  = Some (["State"; "Severity4"],
          [Some (num 0); Some (num 0); Some (num 1); Some (num 0)]).
Proof. vm_compute. reflexivity. Qed.

(** ** Balancer *)

Lemma filter_all {A} (P : A → Prop) `{∀ x, Decision (P x)} (l : list A) :
  Forall P l → filter P l = l.
Proof.
  induction 1 as [|x l Hx _ IH]; [done|].
  by rewrite filter_cons_True, IH.
Qed.

Lemma filter_none {A} (P : A → Prop) `{∀ x, Decision (P x)} (l : list A) :
  Forall (λ x, ¬ P x) l → filter P l = [].
Proof.
  induction 1 as [|x l Hx _ IH]; [done|].
  by rewrite filter_cons_False.
Qed.

Lemma Forall_take_filter {A} (P : A → Prop) `{∀ x, Decision (P x)} n (l : list A) :
  Forall P (take n (filter P l)).
Proof.
  apply Forall_take, Forall_forall. intros x Hx.
  by apply list_elem_of_filter in Hx as [? _].
Qed.

Lemma eq_num_0_1 c : eq_num 0 c = true → eq_num 1 c = true → False.
Proof.
  destruct c as [[q|s|[]|t]|]; cbn; try done.
  intros ->%bool_decide_eq_true_1 H%bool_decide_eq_true_1.
  by apply Q2Qc_eq_iff, inject_Z_injective in H.
Qed.

Lemma cap_value : Z.of_nat cap = 110000.
Proof. unfold cap. lia. Qed.

Lemma count_take_same c k n (rs : list row) :
  length (filter (λ r : row, eq_num k (r !! c) = true)
            (take n (filter (λ r : row, eq_num k (r !! c) = true) rs)))
  = (n `min` length (filter (λ r : row, eq_num k (r !! c) = true) rs))%nat.
Proof.
  rewrite filter_all by apply (Forall_take_filter _). apply length_take.
Qed.

Lemma count_take_other c k k' n (rs : list row) :
  (∀ v, eq_num k v = true → eq_num k' v = true → False) →
  filter (λ r : row, eq_num k (r !! c) = true)
    (take n (filter (λ r : row, eq_num k' (r !! c) = true) rs)) = [].
Proof.
  intros Hex. apply filter_none.
  eapply Forall_impl; [apply (Forall_take_filter _)|].
  intros r Hk' Hk. by eapply Hex.
Qed.

(** C1, as the code has it: the balancer succeeds on a frame with the label;
    it keeps the first 110000 rows of each class, each class on its own, so
    the output holds min(count of the class in the input, 110000) rows of a
    class; the two classes of the output are of equal size when both classes
    of the input have 110000 rows or more. *)
Theorem balancer_counts (df : DataFrame) :
  "Severity4" ∈ columns df →
  ∃ out, balancer df = Some out ∧
    count_label "Severity4" 0 out
    = Z.min (count_label "Severity4" 0 df) 110000 ∧
    count_label "Severity4" 1 out
    = Z.min (count_label "Severity4" 1 df) 110000 ∧
    (110000 ≤ count_label "Severity4" 0 df →
     110000 ≤ count_label "Severity4" 1 df →
     count_label "Severity4" 0 out = 110000 ∧
     count_label "Severity4" 1 out = 110000).
Proof.
  intros Hlabel. unfold balancer.
  rewrite require_Some by (repeat constructor; done).
  eexists. split; [reflexivity|].
  unfold count_label. cbn [rows concat head select].
  rewrite !filter_app, !length_app, !count_take_same.
  rewrite (count_take_other _ 0 1), (count_take_other _ 1 0).
  - cbn [length]. rewrite <- cap_value. lia.
  - intros v H1 H0. by eapply eq_num_0_1.
  - apply eq_num_0_1.
Qed.

Lemma balancer_counts_witness :
  ∃ out, balancer three_to_one = Some out ∧
    count_label "Severity4" 0 out
    = Z.min (count_label "Severity4" 0 three_to_one) 110000 ∧
    count_label "Severity4" 1 out
    = Z.min (count_label "Severity4" 1 three_to_one) 110000 ∧
    (110000 ≤ count_label "Severity4" 0 three_to_one →
     110000 ≤ count_label "Severity4" 1 three_to_one →
     count_label "Severity4" 0 out = 110000 ∧
     count_label "Severity4" 1 out = 110000).
Proof.
  apply (balancer_counts three_to_one).
  apply (bool_decide_unpack _). vm_compute. exact I.
Defined.

(** With three rows of class 0 and one row of class 1 the output keeps the
    three and the one: the classes are not of equal size, and the size of
    class 0 is not the least of 3, 1 and 110000. *)
Lemma balancer_unequal_classes :
  ∃ out, balancer three_to_one = Some out ∧
    count_label "Severity4" 0 out = 3 ∧
    count_label "Severity4" 1 out = 1 ∧
    ¬ (count_label "Severity4" 0 out = count_label "Severity4" 1 out ∧
       count_label "Severity4" 0 out
       = Z.min (count_label "Severity4" 0 three_to_one)
               (Z.min (count_label "Severity4" 1 three_to_one) 110000)).
Proof.
  eexists. split; [reflexivity|].
  split; [by vm_compute|]. split; [by vm_compute|].
  intros [Heq _]. vm_compute in Heq. discriminate.
Qed.

(** ** Text matching: what the search finds *)

Lemma app_cons a (p s : string) : String a p +:+ s = String a (p +:+ s).
Proof. reflexivity. Qed.

Lemma app_empty (s : string) : EmptyString +:+ s = s.
Proof. reflexivity. Qed.

Lemma starts_with_app p s : starts_with p (p +:+ s) = true.
Proof.
  induction p as [|a p IH]; [done|].
  rewrite app_cons. cbn [starts_with]. by rewrite bool_decide_eq_true_2.
Qed.

Lemma starts_with_inv p s :
  starts_with p s = true → ∃ post, s = p +:+ post.
Proof.
  revert s. induction p as [|a p IH]; intros s H.
  - by exists s.
  - destruct s as [|b s]; [done|]. cbn [starts_with] in H.
    apply andb_true_iff in H as [->%bool_decide_eq_true_1 H].
    destruct (IH _ H) as [post ->]. by exists post.
Qed.

Lemma occurs_in_here p post : occurs_in p (p +:+ post) = true.
Proof.
  destruct (p +:+ post) eqn:E; cbn [occurs_in];
    rewrite <- E, starts_with_app; done.
Qed.

Lemma occurs_in_app pre p post : occurs_in p (pre +:+ p +:+ post) = true.
Proof.
  induction pre as [|a pre IH].
  - rewrite app_empty. apply occurs_in_here.
  - rewrite app_cons. cbn [occurs_in]. rewrite IH. apply orb_true_r.
Qed.

Lemma occurs_in_inv p s :
  occurs_in p s = true → ∃ pre post, s = pre +:+ p +:+ post.
Proof.
  induction s as [|a s IH]; cbn [occurs_in]; intros H.
  - rewrite orb_false_r in H. apply starts_with_inv in H as [post ->].
    by exists EmptyString, post.
  - apply orb_true_iff in H as [H|H].
    + apply starts_with_inv in H as [post ->]. by exists EmptyString, post.
    + destruct (IH H) as (pre & post & ->). by exists (String a pre), post.
Qed.

Lemma string_app_assoc (a b c : string) : (a +:+ b) +:+ c = a +:+ b +:+ c.
Proof. induction a as [|x a IH]; [done|]. by rewrite !app_cons, IH. Qed.

Lemma occurs_in_trans a b c :
  occurs_in a b = true → occurs_in b c = true → occurs_in a c = true.
Proof.
  intros (p1 & q1 & ->)%occurs_in_inv (p2 & q2 & ->)%occurs_in_inv.
  rewrite !string_app_assoc, <- (string_app_assoc p2 p1).
  apply occurs_in_app.
Qed.

Lemma casefold_app a b : casefold (a +:+ b) = casefold a +:+ casefold b.
Proof.
  induction a as [|x a IH]; [done|].
  rewrite app_cons. cbn [casefold]. by rewrite IH.
Qed.

Lemma search_nocase_alternative pat w s :
  w ∈ alternatives pat →
  occurs_in (casefold w) (casefold s) = true →
  search_nocase pat s = true.
Proof.
  intros Hw Hocc. unfold search_nocase. apply existsb_exists.
  exists w. split; [by apply list_elem_of_In|done].
Qed.

Lemma search_nocase_inv pat s :
  search_nocase pat s = true →
  ∃ w, w ∈ alternatives pat ∧ occurs_in (casefold w) (casefold s) = true.
Proof.
  unfold search_nocase. intros (w & Hw & Hocc)%existsb_exists.
  exists w. split; [by apply list_elem_of_In|done].
Qed.

Lemma contains_nocase_occurs w s :
  contains_nocase w s → occurs_in (casefold w) (casefold s) = true.
Proof.
  intros (pre & mid & post & -> & Hmid).
  rewrite !casefold_app, Hmid. apply occurs_in_app.
Qed.

(** ** Categorical normalizer: row by row *)

Lemma assign_step c f df i (r : row) :
  rows df !! i = Some r →
  ∃ r' : row, rows (assign c f df) !! i = Some r' ∧
    r' !! c = f r ∧ ∀ c', c ≠ c' → r' !! c' = r !! c'.
Proof.
  intros Hr. rewrite rows_assign, Hr. eexists. split; [reflexivity|].
  split; [apply lookup_set_cell_eq|]. intros c' Hne. by apply lookup_set_cell_ne.
Qed.

Lemma loc_set_step mask c f df i (r : row) :
  rows df !! i = Some r →
  ∃ r' : row, rows (loc_set mask c f df) !! i = Some r' ∧
    r' !! c = (if mask r then f r else r !! c) ∧
    ∀ c', c ≠ c' → r' !! c' = r !! c'.
Proof.
  intros Hr. rewrite rows_loc_set, Hr. eexists. split; [reflexivity|].
  destruct (mask r); [|done].
  split; [apply lookup_set_cell_eq|]. intros c' Hne. by apply lookup_set_cell_ne.
Qed.

Lemma canonical_wind_other df i (r : row) :
  rows df !! i = Some r →
  ∃ r' : row, rows (canonical_wind df) !! i = Some r' ∧
    ∀ c, c ≠ "Wind_Direction" → r' !! c = r !! c.
Proof.
  intros Hr. unfold canonical_wind, loc_set_const. cbv zeta.
  repeat match goal with
  | H : rows ?d !! i = Some ?r0
    |- context [loc_set ?m "Wind_Direction" ?f ?d] =>
      let r1 := fresh "r" in let H1 := fresh "Hr" in let Ho := fresh "Ho" in
      destruct (loc_set_step m "Wind_Direction" f d i r0 H) as (r1 & H1 & _ & Ho);
      clear H
  end.
  eexists. split; [eassumption|]. intros c Hc.
  repeat match goal with
  | H : ∀ c', _ ≠ c' → ?r1 !! c' = _ |- context [?r1 !! c] =>
      rewrite (H c) by done; clear H
  end.
  done.
Qed.

Lemma weather_flag_step c pat df i (r : row) :
  rows df !! i = Some r →
  ∃ r' : row, rows (weather_flag c pat df) !! i = Some r' ∧
    r' !! c = where_1_0 (str_contains pat (weather_condition r)) ∧
    ∀ c', c ≠ c' → r' !! c' = r !! c'.
Proof. apply assign_step. Qed.

Lemma weather_flags_row df i (r : row) :
  rows df !! i = Some r →
  ∃ r' : row, rows (weather_flags df) !! i = Some r' ∧
    weather_condition r' = weather_condition r ∧
    ∀ c pat, (c, pat) ∈ flag_patterns →
      r' !! c = where_1_0 (str_contains pat (weather_condition r)).
Proof.
  intros Hr. unfold weather_flags. cbv zeta.
  destruct (weather_flag_step "Clear" "Clear" _ i r Hr) as (r1 & H1 & E1 & O1).
  destruct (weather_flag_step "Cloud" "Cloud|Overcast" _ i r1 H1)
    as (r2 & H2 & E2 & O2).
  destruct (weather_flag_step "Rain" "Rain|storm" _ i r2 H2)
    as (r3 & H3 & E3 & O3).
  destruct (weather_flag_step "Heavy_Rain"
              "Heavy Rain|Rain Shower|Heavy T-Storm|Heavy Thunderstorms"
              _ i r3 H3) as (r4 & H4 & E4 & O4).
  destruct (weather_flag_step "Snow" "Snow|Sleet|Ice" _ i r4 H4)
    as (r5 & H5 & E5 & O5).
  destruct (weather_flag_step "Heavy_Snow"
              "Heavy Snow|Heavy Sleet|Heavy Ice Pellets|Snow Showers|Squalls"
              _ i r5 H5) as (r6 & H6 & E6 & O6).
  destruct (weather_flag_step "Fog" "Fog" _ i r6 H6) as (r7 & H7 & E7 & O7).
  assert (∀ rk : row, weather_condition rk = rk !! "Weather_Condition") as Hwc
    by done.
  exists r7. split; [done|]. split.
  { rewrite !Hwc. by follow_cell. }
  intros c pat Hin. unfold flag_patterns in Hin.
  rewrite !Hwc in *.
  repeat (apply elem_of_cons in Hin as [[= -> ->]|Hin]; [by follow_cell|]).
  by apply elem_of_nil in Hin.
Qed.

Lemma null_flags_fold ls df i (r : row) :
  "Weather_Condition" ∉ ls →
  rows df !! i = Some r →
  ∃ r' : row,
    rows (foldl (λ df c, loc_set (λ r, isnull (weather_condition r)) c
                           weather_condition df) df ls) !! i = Some r' ∧
    ∀ c, r' !! c = if decide (c ∈ ls ∧ weather_condition r = None)
                   then None else r !! c.
Proof.
  revert df r. induction ls as [|a ls IH]; intros df r Hwc Hr.
  - exists r. split; [done|]. intros c. rewrite decide_False; [done|].
    intros [Hc _]. by apply elem_of_nil in Hc.
  - apply not_elem_of_cons in Hwc as [Hne Hwc]. cbn [foldl].
    destruct (loc_set_step (λ r, isnull (weather_condition r)) a
                weather_condition df i r Hr) as (r1 & Hr1 & Ha & Hother).
    destruct (IH _ r1 Hwc Hr1) as (r' & Hr' & Hcells).
    assert (weather_condition r1 = weather_condition r) as Hsame.
    { unfold weather_condition. by apply Hother. }
    exists r'. split; [done|]. intros c. rewrite Hcells, Hsame.
    destruct (weather_condition r) as [v|] eqn:Ev.
    + rewrite !decide_False by (by intros [_ ?]).
      destruct (decide (a = c)) as [<-|Hac]; [by rewrite Ha|by apply Hother].
    + destruct (decide (c ∈ ls)) as [Hin|Hout].
      * rewrite !decide_True; [done| |done].
        split; [by right|done].
      * rewrite (decide_False (P := c ∈ ls ∧ _)) by (by intros [? _]).
        destruct (decide (a = c)) as [<-|Hac].
        -- rewrite decide_True, Ha; [done|]. split; [by left|done].
        -- rewrite decide_False, Hother; [done..|].
           intros [[->|?]%elem_of_cons _]; done.
Qed.

Lemma null_flags_row df i (r : row) :
  rows df !! i = Some r →
  ∃ r' : row, rows (null_flags df) !! i = Some r' ∧
    ∀ c, r' !! c = if decide (c ∈ weather ∧ weather_condition r = None)
                   then None else r !! c.
Proof.
  apply null_flags_fold. unfold weather.
  rewrite !not_elem_of_cons. repeat split; try done. apply not_elem_of_nil.
Qed.

Lemma weather_not_weather_condition c : c ∈ weather → c ≠ "Weather_Condition".
Proof.
  unfold weather. intros Hin ->.
  repeat (apply elem_of_cons in Hin as [[=]|Hin]). by apply elem_of_nil in Hin.
Qed.


Lemma normalizer_columns c df :
  c ∈ weather ∨ c ∈ columns df →
  c ∈ columns (null_flags (weather_flags (canonical_wind df))).
Proof.
  unfold null_flags, weather_flags, canonical_wind, weather_flag, loc_set_const,
    weather.
  cbn [foldl columns assign loc_set]. rewrite !elem_of_add_label.
  rewrite !elem_of_cons, elem_of_nil. tauto.
Qed.

Lemma canonical_wind_None df i :
  rows df !! i = None → rows (canonical_wind df) !! i = None.
Proof.
  intros Hr. unfold canonical_wind, loc_set_const. cbv zeta.
  by rewrite !rows_loc_set, Hr.
Qed.

Lemma canonical_wind_keeps_conditions df :
  Forall (λ r, str_or_null (weather_condition r)) (rows df) →
  Forall (λ r, str_or_null (weather_condition r)) (rows (canonical_wind df)).
Proof.
  intros Hdf. apply Forall_lookup. intros i r1 Hr1.
  destruct (rows df !! i) as [r|] eqn:Hr.
  - destruct (canonical_wind_other df i r Hr) as (r1' & Hr1' & Hsame).
    assert (r1' = r1) as -> by congruence.
    unfold weather_condition. rewrite Hsame by done.
    by eapply (Forall_lookup_1 _ _ _ _ Hdf).
  - by rewrite canonical_wind_None in Hr1.
Qed.

Lemma canonical_wind_keeps_object_column df :
  object_column "Weather_Condition" df →
  object_column "Weather_Condition" (canonical_wind df).
Proof.
  intros [Hnil|Hstr].
  - left. unfold canonical_wind, loc_set_const. cbn [rows loc_set].
    by rewrite Hnil.
  - right. apply Exists_exists in Hstr as (r & Hr & Hs).
    apply list_elem_of_lookup in Hr as [i Hi].
    destruct (canonical_wind_other df i r Hi) as (r' & Hr' & Hsame).
    apply Exists_exists. exists r'.
    split; [by eapply list_elem_of_lookup_2|]. by rewrite Hsame.
Qed.

(** The normalizer succeeds on its inputs; the seven flags are labels of its
    output and the condition is none; the flag of a row is null where the
    condition was null, and else 1 or 0 as the pattern is found or not. *)
Lemma categorical_normalizer_rows df :
  normalizer_input df →
  ∃ out, categorical_normalizer df = Some out ∧
    (∀ c, c ∈ weather → c ∈ columns out) ∧
    ∀ i (r : row), rows df !! i = Some r →
      ∃ r' : row, rows out !! i = Some r' ∧
        ∀ c pat, (c, pat) ∈ flag_patterns →
          r' !! c = match weather_condition r with
                    | None => None
                    | Some v => where_1_0 (str_contains pat (Some v))
                    end.
Proof.
  intros (Hwd & Hwc & Hstr & Hobj). unfold categorical_normalizer.
  rewrite require_Some by (repeat constructor; done).
  cbn [mbind option_bind].
  rewrite option_guard_True by by apply canonical_wind_keeps_conditions.
  rewrite option_guard_True by by apply canonical_wind_keeps_object_column.
  rewrite drop_Some by (repeat constructor; apply normalizer_columns; auto).
  eexists. split; [reflexivity|]. cbn [columns rows]. split.
  - intros c Hc. apply list_elem_of_filter. split.
    + rewrite list_elem_of_singleton. by apply weather_not_weather_condition.
    + apply normalizer_columns. auto.
  - intros i r Hr.
    destruct (canonical_wind_other df i r Hr) as (r1 & Hr1 & Hsame).
    destruct (weather_flags_row _ i r1 Hr1) as (r2 & Hr2 & Hwc2 & Hflags).
    destruct (null_flags_row _ i r2 Hr2) as (r3 & Hr3 & Hnull).
    rewrite list_lookup_fmap, Hr3. eexists. split; [reflexivity|].
    intros c pat Hin.
    assert (c ∈ weather) as Hc.
    { unfold flag_patterns in Hin. unfold weather.
      repeat (apply elem_of_cons in Hin as [[= -> _]|Hin];
              [repeat first [by left|right]|]).
      by apply elem_of_nil in Hin. }
    rewrite lookup_delete_labels_not_elem; cycle 1.
    { rewrite list_elem_of_singleton. by apply weather_not_weather_condition. }
    rewrite Hnull, (Hflags c pat Hin), Hwc2.
    assert (weather_condition r1 = weather_condition r) as ->.
    { unfold weather_condition. by apply Hsame. }
    destruct (weather_condition r) as [v|].
    + by rewrite decide_False by (by intros [_ ?]).
    + by rewrite decide_True.
Qed.

Lemma where_1_0_is_one b : where_1_0 b = Some (num 1) → b = true.
Proof.
  destruct b; [done|]. unfold where_1_0. intros H.
  assert (num 0 = num 1) as E%num_inj by congruence. done.
Qed.

Lemma heavy_rain_words w :
  w ∈ alternatives "Heavy Rain|Rain Shower|Heavy T-Storm|Heavy Thunderstorms" →
  ∃ w', w' ∈ alternatives "Rain|storm" ∧
        occurs_in (casefold w') (casefold w) = true.
Proof.
  intros Hw. vm_compute in Hw.
  repeat (apply elem_of_cons in Hw as [->|Hw];
          [first [ by exists "Rain"; split; [left|vm_compute]
                 | by exists "storm"; split; [right; left|vm_compute] ]|]).
  by apply elem_of_nil in Hw.
Qed.

Lemma heavy_search_implies_rain_search s :
  search_nocase "Heavy Rain|Rain Shower|Heavy T-Storm|Heavy Thunderstorms" s
  = true →
  search_nocase "Rain|storm" s = true.
Proof.
  intros (w & Hw & Hocc)%search_nocase_inv.
  destruct (heavy_rain_words w Hw) as (w' & Hw' & Hocc').
  apply (search_nocase_alternative _ w'); [done|].
  by eapply occurs_in_trans.
Qed.

Lemma flags_follow (b1 b2 : bool) :
  (b1 = true → b2 = true) →
  where_1_0 b1 = Some (num 1) → where_1_0 b2 = Some (num 1).
Proof. intros Himp H%where_1_0_is_one. by rewrite (Himp H). Qed.

Lemma normalizer_input_weathers : normalizer_input weathers.
Proof.
  repeat split; apply (bool_decide_unpack _); vm_compute; exact I.
Defined.



(** C6: a row whose condition is a string in which [Rain] occurs, the case of
    the letters ignored, has the flag [Rain] equal to 1 after the
    normalizer. *)
Theorem rain_text_gives_rain_flag (df : DataFrame) (i : nat) (r : row) s :
  normalizer_input df →
  rows df !! i = Some r →
  weather_condition r = Some (VStr s) →
  contains_nocase "Rain" s →
  ∃ out (r' : row), categorical_normalizer df = Some out ∧
    rows out !! i = Some r' ∧ r' !! "Rain" = Some (num 1).
Proof.
  intros Hin Hr Hs Hrain.
  destruct (categorical_normalizer_rows df Hin) as (out & Hout & _ & Hrows).
  destruct (Hrows i r Hr) as (r' & Hr' & Hflags).
  exists out, r'. split; [done|]. split; [done|].
  rewrite (Hflags "Rain" "Rain|storm"), Hs by (unfold flag_patterns; repeat first [by left|right]).
  cbn [str_contains].
  rewrite (search_nocase_alternative _ "Rain"); [done|by left|].
  by apply contains_nocase_occurs.
Qed.

Lemma rain_text_gives_rain_flag_witness :
  ∃ out (r' : row), categorical_normalizer weathers = Some out ∧
    rows out !! 0%nat = Some r' ∧ r' !! "Rain" = Some (num 1).
Proof.
  apply (rain_text_gives_rain_flag weathers 0
           (list_to_map [("Wind_Direction", VStr "Calm");
                         ("Weather_Condition", VStr "Light Rain")])
           "Light Rain").
  - exact normalizer_input_weathers.
  - reflexivity.
  - vm_compute. reflexivity.
  - exists "Light ", "Rain", "". split; reflexivity.
Defined.

(** C10: each word of the pattern of [Heavy_Rain] holds a word of the pattern
    of [Rain], the case ignored; so a row with [Heavy_Rain] equal to 1 after
    the normalizer has [Rain] equal to 1. *)
Theorem heavy_rain_implies_rain (df : DataFrame) (i : nat) (r : row) :
  normalizer_input df →
  rows df !! i = Some r →
  is_Some (weather_condition r) →
  (∀ w, w ∈ alternatives
              "Heavy Rain|Rain Shower|Heavy T-Storm|Heavy Thunderstorms" →
        ∃ w', w' ∈ alternatives "Rain|storm" ∧
              occurs_in (casefold w') (casefold w) = true) ∧
  ∃ out (r' : row), categorical_normalizer df = Some out ∧
    rows out !! i = Some r' ∧
    (r' !! "Heavy_Rain" = Some (num 1) → r' !! "Rain" = Some (num 1)).
Proof.
  intros Hin Hr [v Hv]. split; [exact heavy_rain_words|].
  destruct (categorical_normalizer_rows df Hin) as (out & Hout & _ & Hrows).
  destruct (Hrows i r Hr) as (r' & Hr' & Hflags).
  exists out, r'. split; [done|]. split; [done|].
  rewrite (Hflags "Rain" "Rain|storm") by (unfold flag_patterns; repeat first [by left|right]).
  rewrite (Hflags "Heavy_Rain"
             "Heavy Rain|Rain Shower|Heavy T-Storm|Heavy Thunderstorms")
    by (unfold flag_patterns; repeat first [by left|right]).
  rewrite Hv. apply flags_follow.
  destruct v as [q|s|b|t]; try (intros H; discriminate H).
  apply heavy_search_implies_rain_search.
Qed.

Lemma heavy_rain_implies_rain_witness :
  (∀ w, w ∈ alternatives
              "Heavy Rain|Rain Shower|Heavy T-Storm|Heavy Thunderstorms" →
        ∃ w', w' ∈ alternatives "Rain|storm" ∧
              occurs_in (casefold w') (casefold w) = true) ∧
  ∃ out (r' : row), categorical_normalizer weathers = Some out ∧
    rows out !! 2%nat = Some r' ∧
    (r' !! "Heavy_Rain" = Some (num 1) → r' !! "Rain" = Some (num 1)).
Proof.
  apply (heavy_rain_implies_rain weathers 2
           (list_to_map [("Weather_Condition", VStr "Heavy T-Storm");
                         ("State", VStr "CA")])).
  - exact normalizer_input_weathers.
  - reflexivity.
  - eexists. vm_compute. reflexivity.
Defined.

Example flags_of_sample :
  (λ df, (λ r : row, (r !! "Rain", r !! "Heavy_Rain", r !! "Cloud")) <$> rows df)
    <$> categorical_normalizer weathers
  = Some [(Some (num 1), Some (num 0), Some (num 0));
          (None, None, None);
          (Some (num 1), Some (num 1), Some (num 0));
          (Some (num 0), Some (num 0), Some (num 1))].
Proof. vm_compute. reflexivity. Qed.

(** ** Column pruner *)

Lemma unique_size_cells c df df' :
  (λ r : row, r !! c) <$> rows df' = (λ r : row, r !! c) <$> rows df →
  unique_size c df' = unique_size c df.
Proof. unfold unique_size. by intros ->. Qed.

(** C8, as the code has it: on a frame with the labels it names, the pruner
    prints the number of unique values of the categorical labels and drops
    the eight labels of [pruned], these and no other; a label outside
    [pruned] is kept with every cell and with the number of unique values it
    had, a single one included. *)
Theorem column_pruner_drops_fixed_labels (df : DataFrame) :
  pruner_input df →
  ∃ printed out, column_pruner df = Some (printed, out) ∧
    columns out = filter (λ c, c ∉ pruned) (columns df) ∧
    printed.*1 = cat_names ∧
    (∀ i (r : row), rows df !! i = Some r →
       ∃ r' : row, rows out !! i = Some r' ∧
                   ∀ c, c ∉ pruned → r' !! c = r !! c) ∧
    ∀ c, c ∉ pruned → unique_size c out = unique_size c df.
Proof.
  intros Hin. unfold pruner_input in Hin. apply Forall_app in Hin as [H6 Hcat].
  unfold column_pruner.
  rewrite drop_Some by done. cbn [mbind option_bind].
  assert (∀ c, c ∈ cat_names →
            c ∈ filter (λ c, c ∉ ["ID"; "Description"; "Distance(mi)";
                                   "End_Time"; "End_Lat"; "End_Lng"])
                  (columns df)) as Hkept.
  { intros c Hc. apply list_elem_of_filter. split.
    - unfold cat_names in Hc. intros Hc6.
      repeat (apply elem_of_cons in Hc as [->|Hc];
              [by repeat (apply elem_of_cons in Hc6 as [[=]|Hc6];
                          try by apply elem_of_nil in Hc6)|]).
      by apply elem_of_nil in Hc.
    - by eapply (proj1 (Forall_forall _ _) Hcat). }
  rewrite require_Some by (apply Forall_forall; intros c Hc; by apply Hkept).
  cbn [mbind option_bind].
  rewrite drop_Some; cycle 1.
  { repeat constructor; apply Hkept; unfold cat_names;
      repeat first [by left|right]. }
  eexists _, _. split; [reflexivity|]. cbn [columns rows].
  assert (∀ c (r : row), c ∉ pruned →
    foldr delete (foldr delete r ["ID"; "Description"; "Distance(mi)";
                                  "End_Time"; "End_Lat"; "End_Lng"])
      ["Country"; "Turning_Loop"] !! c = r !! c) as Hcells.
  { intros c r Hc. unfold pruned in Hc.
    repeat (apply not_elem_of_cons in Hc as [? Hc]).
    rewrite !lookup_delete_labels_not_elem; [done|..];
      rewrite !not_elem_of_cons; repeat split; try done; apply not_elem_of_nil. }
  split; [|split; [|split]].
  - rewrite list_filter_filter. apply list_filter_iff. intros c.
    unfold pruned. rewrite !not_elem_of_cons. tauto.
  - by rewrite <- list_fmap_compose.
  - intros i r Hr. rewrite !list_lookup_fmap, Hr. eexists.
    split; [reflexivity|]. intros c Hc. by apply Hcells.
  - intros c Hc. apply unique_size_cells. cbn [rows].
    rewrite <- !list_fmap_compose. apply list_fmap_ext.
    intros i r _. by apply Hcells.
Qed.

Lemma column_pruner_drops_fixed_labels_witness :
  ∃ printed out, column_pruner right_side = Some (printed, out) ∧
    columns out = filter (λ c, c ∉ pruned) (columns right_side) ∧
    printed.*1 = cat_names ∧
    (∀ i (r : row), rows right_side !! i = Some r →
       ∃ r' : row, rows out !! i = Some r' ∧
                   ∀ c, c ∉ pruned → r' !! c = r !! c) ∧
    ∀ c, c ∉ pruned → unique_size c out = unique_size c right_side.
Proof.
  apply (column_pruner_drops_fixed_labels right_side).
  apply (bool_decide_unpack _). vm_compute. exact I.
Defined.

(** Both rows of the sample are on the side [R]: the pruner prints the count
    1 for [Side], and [Side] is a label of its output with that single
    value. *)
Lemma column_pruner_keeps_constant_side :
  ∃ printed out, column_pruner right_side = Some (printed, out) ∧
    ("Side", 1%nat) ∈ printed ∧
    "Side" ∈ columns out ∧
    unique_size "Side" out = 1%nat ∧
    ¬ (∀ c, c ∈ columns out → unique_size c out ≠ 1%nat).
Proof.
  eexists _, _. split; [vm_compute; reflexivity|].
  split; [apply (bool_decide_unpack _); vm_compute; exact I|].
  split; [apply (bool_decide_unpack _); vm_compute; exact I|].
  split; [by vm_compute|].
  intros Hall. apply (Hall "Side"); [|by vm_compute].
  apply (bool_decide_unpack _). vm_compute. exact I.
Qed.

(** ** Missing data and duplicates: cells and medians *)

Lemma set_cell_None_noop c (r : row) : r !! c = None → set_cell c None r = r.
Proof.
  intros Hc. apply map_eq. intros k. destruct (decide (c = k)) as [<-|Hne].
  - by rewrite lookup_set_cell_eq.
  - by rewrite lookup_set_cell_ne.
Qed.

Lemma fill_cell_other c c' v (r : row) :
  c ≠ c' → fill_cell c v r !! c' = r !! c'.
Proof.
  intros Hne. unfold fill_cell. destruct (r !! c); [done|].
  by apply lookup_set_cell_ne.
Qed.

Lemma fill_cell_same c v (r : row) :
  fill_cell c v r !! c = match r !! c with
                         | None => VNum <$> v
                         | Some x => Some x
                         end.
Proof.
  unfold fill_cell. destruct (r !! c) eqn:E; [done|]. apply lookup_set_cell_eq.
Qed.


Lemma fill_cell_noop c v (r : row) :
  is_Some (r !! c) ∨ v = None → fill_cell c v r = r.
Proof.
  unfold fill_cell. intros [[x ->]| ->]; [done|].
  destruct (r !! c) eqn:E; [done|]. by apply set_cell_None_noop.
Qed.


Lemma fill_cell_numeric c c' v (r : row) :
  numeric_or_null (r !! c') → numeric_or_null (fill_cell c v r !! c').
Proof.
  intros Hc'. destruct (decide (c = c')) as [<-|Hne].
  - rewrite fill_cell_same. destruct (r !! c); [done|].
    destruct v; simpl; eauto.
  - by rewrite fill_cell_other.
Qed.

Lemma fillna_noop c v df :
  Forall (λ r : row, is_Some (r !! c)) (rows df) ∨ v = None →
  fillna c v df = df.
Proof.
  intros Hcase. destruct df as [cols rs]. unfold fillna. cbn [columns rows] in *.
  f_equal. rewrite <- (list_fmap_id rs) at 2. apply list_fmap_ext.
  intros i r Hr. apply fill_cell_noop. destruct Hcase as [Hall|Hv]; [left|by right].
  by eapply (Forall_lookup_1 _ _ _ _ Hall).
Qed.

Lemma numbers_of_cons c (r : row) rs :
  numbers_of c (r :: rs)
  = match r !! c with
    | None => numbers_of c rs
    | Some v => q ← as_number v; xs ← numbers_of c rs; Some (q :: xs)
    end.
Proof. unfold numbers_of. cbn [omap list_omap]. by destruct (r !! c). Qed.

(** The values of a column can be read as numbers exactly when its cells are
    numbers or nulls; there is no value exactly when every cell is null. *)
Lemma numbers_of_numeric c rs :
  Forall (λ r : row, numeric_or_null (r !! c)) rs →
  ∃ xs, numbers_of c rs = Some xs ∧
        (xs = [] ↔ Forall (λ r : row, r !! c = None) rs).
Proof.
  induction 1 as [|r rs Hr _ (xs & Hxs & Hnil)].
  - exists []. by split.
  - rewrite numbers_of_cons, Hxs. destruct (r !! c) as [v|] eqn:Ev.
    + destruct Hr as [q Hq]. simpl in Hq. rewrite Hq. cbn.
      exists (q :: xs). split; [done|]. split; [done|].
      intros Hall. apply Forall_cons in Hall as [Hv _]. congruence.
    + exists xs. split; [done|]. rewrite Hnil. split.
      * intros Hall. by constructor.
      * intros Hall. by apply Forall_cons in Hall as [_ ?].
Qed.

Lemma numbers_of_inv c rs xs :
  numbers_of c rs = Some xs →
  Forall (λ r : row, numeric_or_null (r !! c)) rs.
Proof.
  revert xs. induction rs as [|r rs IH]; intros xs Hxs; [done|].
  rewrite numbers_of_cons in Hxs. destruct (r !! c) as [v|] eqn:Ev.
  - destruct (as_number v) as [q|] eqn:Eq; [|done]. cbn in Hxs.
    destruct (numbers_of c rs) as [xs'|]; [|done].
    constructor; [|by eapply IH]. rewrite Ev. simpl. by rewrite Eq.
  - constructor; [by rewrite Ev|by eapply IH].
Qed.

Lemma median_of_nil : median_of [] = None.
Proof. reflexivity. Qed.

Lemma median_of_is_Some xs : xs ≠ [] → is_Some (median_of xs).
Proof.
  intros Hxs. unfold median_of.
  assert (length (merge_sort Qcle xs) ≠ 0%nat) as Hlen.
  { rewrite (Permutation_length (merge_sort_Permutation Qcle xs)).
    by destruct xs. }
  set (s := merge_sort Qcle xs) in *. set (n := length s) in *.
  assert (n / 2 < n)%nat as Hhalf by (apply Nat.div_lt; lia).
  destruct (lookup_lt_is_Some_2 s (n / 2)%nat Hhalf) as [b Hb].
  destruct (Nat.even n); [|by rewrite Hb].
  assert (n / 2 - 1 < n)%nat as Hless by lia.
  destruct (lookup_lt_is_Some_2 s (n / 2 - 1)%nat Hless) as [a Ha].
  by rewrite Ha, Hb.
Qed.

(** ** Missing data and duplicates: the first of equal rows *)

Section keep_first.
Context `{EqDecision A}.
Implicit Types (seen l : list A) (x : A).

Lemma keep_first_elem seen l x : x ∈ keep_first seen l → x ∈ l ∧ x ∉ seen.
Proof.
  revert seen. induction l as [|y l IH]; intros seen Hx; [by inversion Hx|].
  cbn [keep_first] in Hx. case_bool_decide as Hy.
  - destruct (IH _ Hx). split; [by right|done].
  - apply elem_of_cons in Hx as [->|Hx]; [split; [by left|done]|].
    destruct (IH _ Hx) as [Hl Hseen]. split; [by right|].
    intros Hin. apply Hseen. by right.
Qed.


(** Every element of the list is in the output or was seen before. *)
Lemma keep_first_covers seen l x :
  x ∈ l → x ∈ keep_first seen l ∨ x ∈ seen.
Proof.
  revert seen. induction l as [|y l IH]; intros seen Hx; [by inversion Hx|].
  cbn [keep_first]. apply elem_of_cons in Hx as [->|Hx].
  - case_bool_decide; [by right|left; by left].
  - case_bool_decide as Hy.
    + by apply IH.
    + destruct (IH (y :: seen) Hx) as [?|[->|?]%elem_of_cons].
      * left. by right.
      * left. by left.
      * by right.
Qed.

End keep_first.


(** ** Missing data and duplicates: the imputation *)

Lemma impute_median_numeric c df :
  c ∈ columns df →
  Forall (λ r : row, numeric_or_null (r !! c)) (rows df) →
  ∃ m, impute_median c df = Some (fillna c m df) ∧
       (m = None ↔ Forall (λ r : row, r !! c = None) (rows df)).
Proof.
  intros Hc Hnum. unfold impute_median, median.
  rewrite require_Some by (repeat constructor; done). cbn [mbind option_bind].
  destruct (numbers_of_numeric c (rows df) Hnum) as (xs & -> & Hnil).
  cbn [mbind option_bind]. exists (median_of xs). split; [done|].
  rewrite <- Hnil. split.
  - intros Hm. destruct xs as [|x xs]; [done|].
    destruct (median_of_is_Some (x :: xs)) as [q Hq]; [done|]. congruence.
  - by intros ->.
Qed.

Lemma impute_median_inv c df out :
  impute_median c df = Some out →
  c ∈ columns df ∧ Forall (λ r : row, numeric_or_null (r !! c)) (rows df).
Proof.
  unfold impute_median, median. intros H.
  destruct (require [c] df) as [[]|] eqn:Hreq; [|done].
  apply require_inv, Forall_cons in Hreq as [Hc _]. cbn [mbind option_bind] in H.
  destruct (numbers_of c (rows df)) as [xs|] eqn:Hxs; [|done].
  split; [done|]. by eapply numbers_of_inv.
Qed.

Lemma fillna_settled c m df :
  (m = None ↔ Forall (λ r : row, r !! c = None) (rows df)) →
  settled c (rows (fillna c m df)).
Proof.
  intros Hm. destruct m as [q|].
  - left. cbn [rows fillna]. apply Forall_fmap, Forall_forall. intros r _.
    cbn. rewrite fill_cell_same. by destruct (r !! c).
  - right. rewrite fillna_noop by by right. by apply Hm.
Qed.

Lemma impute_median_settled c df :
  c ∈ columns df →
  Forall (λ r : row, numeric_or_null (r !! c)) (rows df) →
  settled c (rows df) →
  impute_median c df = Some df.
Proof.
  intros Hc Hnum Hset.
  destruct (impute_median_numeric c df Hc Hnum) as (m & -> & Hm).
  f_equal. apply fillna_noop. destruct Hset as [Hall|Hnone]; [by left|].
  right. by apply Hm.
Qed.

(** ** Missing data and duplicates: one run of lines 274-300 *)

Lemma dropna_Some labels df :
  Forall (λ c, c ∈ columns df) labels →
  dropna labels df
  = Some {| columns := columns df;
            rows := filter (notnull_in labels) (rows df) |}.
Proof. intros H. unfold dropna. by rewrite require_Some. Qed.

Lemma dropna_inv labels df out :
  dropna labels df = Some out →
  Forall (λ c, c ∈ columns df) labels ∧
  out = {| columns := columns df;
           rows := filter (notnull_in labels) (rows df) |}.
Proof.
  unfold dropna. intros H.
  destruct (require labels df) as [[]|] eqn:E; simplify_eq/=.
  split; [by eapply require_inv|done].
Qed.

Lemma resolve_rows_run df :
  resolve_rows_input df →
  ∃ mP mW,
    resolve_rows df
    = Some (drop_duplicates
              (fillna "Wind_Chill(F)" mW
                 (fillna "Precipitation(in)" mP (kept_rows df)))) ∧
    (mP = None ↔
     Forall (λ r : row, r !! "Precipitation(in)" = None) (rows (kept_rows df))) ∧
    (mW = None ↔
     Forall (λ r : row, r !! "Wind_Chill(F)" = None)
       (rows (fillna "Precipitation(in)" mP (kept_rows df)))).
Proof.
  intros [Hcols Hnum]. apply Forall_cons in Hcols as [HP Hcols].
  apply Forall_cons in Hcols as [HW Hcols].
  assert (Forall (λ r : row, numeric_or_null (r !! "Precipitation(in)") ∧
                             numeric_or_null (r !! "Wind_Chill(F)"))
            (rows (kept_rows df))) as Hkept.
  { apply Forall_forall. intros r [Hr Hin]%list_elem_of_filter.
    by apply (proj1 (Forall_forall _ _) Hnum). }
  unfold resolve_rows. rewrite dropna_Some by done. cbn [mbind option_bind].
  fold (kept_rows df).
  destruct (impute_median_numeric "Precipitation(in)" (kept_rows df))
    as (mP & -> & HmP); [done|by eapply Forall_impl; [exact Hkept|intros ? []]|].
  cbn [mbind option_bind].
  destruct (impute_median_numeric "Wind_Chill(F)"
              (fillna "Precipitation(in)" mP (kept_rows df)))
    as (mW & -> & HmW); [done| |].
  { cbn [rows fillna]. apply Forall_fmap. eapply Forall_impl; [exact Hkept|].
    intros r [_ Hw]. cbn. by apply fill_cell_numeric. }
  by exists mP, mW.
Qed.

Lemma resolve_rows_inv df out :
  resolve_rows df = Some out → resolve_rows_input df.
Proof.
  unfold resolve_rows. intros H.
  destruct (dropna low_missing df) as [d1|] eqn:H1; [|done].
  apply dropna_inv in H1 as [Hcols ->]. fold (kept_rows df) in H.
  cbn [mbind option_bind] in H.
  destruct (impute_median "Precipitation(in)" (kept_rows df)) as [d2|] eqn:H2;
    [|done].
  cbn [mbind option_bind] in H.
  destruct (impute_median "Wind_Chill(F)" d2) as [d3|] eqn:H3; [|done].
  pose proof (impute_median_inv _ _ _ H2) as [HP HnumP].
  destruct (impute_median_numeric _ _ HP HnumP) as (mP & HmP & _).
  assert (d2 = fillna "Precipitation(in)" mP (kept_rows df)) as -> by congruence.
  apply impute_median_inv in H3 as [HW HnumW].
  split; [by do 2 (constructor; [done|])|].
  apply Forall_forall. intros r Hr Hnotnull.
  assert (r ∈ rows (kept_rows df)) as Hkept by by apply list_elem_of_filter.
  split; [by apply (proj1 (Forall_forall _ _) HnumP)|].
  assert (numeric_or_null
            (fill_cell "Precipitation(in)" mP r !! "Wind_Chill(F)")) as Hw.
  { apply (proj1 (Forall_forall _ _) HnumW). cbn [rows fillna].
    by apply list_elem_of_fmap_2. }
  by rewrite fill_cell_other in Hw.
Qed.

Section one_run.
Variables (df : DataFrame) (mP mW : option Qc).

Hypothesis HmP :
  mP = None ↔
  Forall (λ r : row, r !! "Precipitation(in)" = None) (rows (kept_rows df)).

Hypothesis HmW :
  mW = None ↔
  Forall (λ r : row, r !! "Wind_Chill(F)" = None)
    (rows (fillna "Precipitation(in)" mP (kept_rows df))).

Lemma resolved_row_origin (r' : row) :
  r' ∈ rows (resolved_with df mP mW) →
  ∃ r : row, r ∈ rows df ∧ notnull_in low_missing r ∧
    r' = fill_cell "Wind_Chill(F)" mW (fill_cell "Precipitation(in)" mP r).
Proof.
  unfold resolved_with. cbn [rows drop_duplicates fillna kept_rows].
  intros [Hin _]%keep_first_elem.
  apply list_elem_of_fmap in Hin as (r2 & -> & Hin).
  apply list_elem_of_fmap in Hin as (r & -> & Hin).
  apply list_elem_of_filter in Hin as [Hnotnull Hin]. by exists r.
Qed.





End one_run.





(** ** Missing data and duplicates: the whole stage *)







(** The drop of [Number] at line 263 is outside lines 274-300 and cannot be
    repeated: the label is gone from the output, so a second drop raises. *)
Example resolver_second_drop :
  missing_data_resolver accidents ≫= missing_data_resolver = None.
Proof. by vm_compute. Qed.

(** ** Dropping labels *)

Lemma drop_None labels df :
  ¬ Forall (λ c, c ∈ columns df) labels → drop labels df = None.
Proof.
  intros H. unfold drop, require. by rewrite option_guard_False.
Qed.

Lemma delete_labels_app l1 l2 (r : row) :
  foldr delete (foldr delete r l1) l2 = foldr delete r (l1 ++ l2).
Proof.
  apply map_eq. intros c.
  destruct (decide (c ∈ l2)) as [H2|H2].
  - rewrite !lookup_delete_labels_elem; [done| |done].
    apply elem_of_app. by right.
  - rewrite (lookup_delete_labels_not_elem l2) by done.
    destruct (decide (c ∈ l1)) as [H1|H1].
    + rewrite !lookup_delete_labels_elem; [done| |done].
      apply elem_of_app. by left.
    + rewrite !lookup_delete_labels_not_elem; [done| |done].
      rewrite elem_of_app. tauto.
Qed.

(** Two drops, one after the other, of lists with no label in common are the
    drop of the two lists at once: the same frame, or the same failure. *)
Lemma drop_twice (l1 l2 : list string) (df : DataFrame) :
  (∀ c, c ∈ l1 → c ∉ l2) →
  drop l1 df ≫= drop l2 = drop (l1 ++ l2) df.
Proof.
  intros Hdisj.
  destruct (decide (Forall (λ c, c ∈ columns df) l1)) as [H1|H1]; cycle 1.
  { rewrite !drop_None; [done| |done]. intros [? _]%Forall_app. done. }
  rewrite (drop_Some l1) by done. cbn [mbind option_bind].
  destruct (decide (Forall (λ c, c ∈ columns df) l2)) as [H2|H2]; cycle 1.
  { rewrite !drop_None; [done| |].
    - intros [_ ?]%Forall_app. done.
    - cbn [columns]. intros H. apply H2. eapply Forall_impl; [exact H|].
      intros c Hc. by apply list_elem_of_filter in Hc as [_ ?]. }
  rewrite drop_Some; cycle 1.
  { cbn [columns]. apply Forall_forall. intros c Hc.
    apply list_elem_of_filter. split.
    - intros Hc1. by apply (Hdisj c).
    - by apply (proj1 (Forall_forall _ _) H2). }
  rewrite drop_Some by by apply Forall_app.
  cbn [columns rows]. f_equal. f_equal.
  - rewrite list_filter_filter. apply list_filter_iff. intros c.
    rewrite elem_of_app. tauto.
  - rewrite <- list_fmap_compose. apply list_fmap_ext. intros i r _.
    apply delete_labels_app.
Qed.

(** ** Column pruner: when it raises *)

Lemma column_pruner_inv df printed out :
  column_pruner df = Some (printed, out) →
  pruner_input df ∧
  out = {| columns := filter (λ c, c ∉ ["Country"; "Turning_Loop"])
                        (filter (λ c, c ∉ ["ID"; "Description"; "Distance(mi)";
                                           "End_Time"; "End_Lat"; "End_Lng"])
                           (columns df));
           rows := (λ r : row, foldr delete r ["Country"; "Turning_Loop"]) <$>
                   ((λ r : row, foldr delete r
                                  ["ID"; "Description"; "Distance(mi)";
                                   "End_Time"; "End_Lat"; "End_Lng"]) <$>
                    rows df) |}.
Proof.
  unfold column_pruner. intros H.
  destruct (drop _ df) as [d1|] eqn:H1; [|done].
  apply drop_inv in H1 as [H6 ->]. cbn [mbind option_bind] in H.
  destruct (require cat_names _) as [[]|] eqn:Hreq; [|done].
  apply require_inv in Hreq. cbn [mbind option_bind columns] in *.
  destruct (drop ["Country"; "Turning_Loop"] _) as [d2|] eqn:H2; [|done].
  apply drop_inv in H2 as [_ ->]. cbn [columns rows] in H.
  injection H as _ <-. split; [|done].
  apply Forall_app. split; [done|].
  eapply Forall_impl; [exact Hreq|]. intros c Hc.
  by apply list_elem_of_filter in Hc as [_ ?].
Qed.

Lemma column_pruner_Some df :
  pruner_input df → is_Some (column_pruner df).
Proof.
  intros Hin. unfold pruner_input in Hin. apply Forall_app in Hin as [H6 Hcat].
  unfold column_pruner. rewrite drop_Some by done. cbn [mbind option_bind].
  assert (Forall (λ c, c ∈ filter (λ c, c ∉ ["ID"; "Description";
                     "Distance(mi)"; "End_Time"; "End_Lat"; "End_Lng"])
                     (columns df)) cat_names) as Hkept.
  { apply Forall_forall. intros c Hc. apply list_elem_of_filter. split.
    - unfold cat_names in Hc. intros Hc6.
      repeat (apply elem_of_cons in Hc as [->|Hc];
              [by repeat (apply elem_of_cons in Hc6 as [[=]|Hc6];
                          try by apply elem_of_nil in Hc6)|]).
      by apply elem_of_nil in Hc.
    - by eapply (proj1 (Forall_forall _ _) Hcat). }
  rewrite require_Some by done. cbn [mbind option_bind].
  rewrite drop_Some; [by eexists|].
  repeat constructor; apply (proj1 (Forall_forall _ _) Hkept);
    unfold cat_names; repeat first [by left|right].
Qed.

(** X1: the pruner returns a frame exactly when the frame has the six labels of
    line 171 and the twenty labels of [cat_names]; with any of them missing it
    raises. *)
Theorem column_pruner_succeeds_iff (df : DataFrame) :
  is_Some (column_pruner df) ↔ pruner_input df.
Proof.
  split; [|apply column_pruner_Some].
  intros [[printed out] H]. by apply column_pruner_inv in H as [? _].
Qed.

(** X2: after the pruner none of the eight labels is a label of the frame or has
    a cell in a row, the rows are as many as before, and the pruner cannot run
    again: a second run raises, since [ID] is gone. *)
Theorem column_pruner_not_repeatable (df out : DataFrame) printed :
  column_pruner df = Some (printed, out) →
  (∀ c, c ∈ pruned →
     (c ∉ columns out) ∧ ∀ r : row, r ∈ rows out → r !! c = None) ∧
  length (rows out) = length (rows df) ∧
  column_pruner out = None.
Proof.
  intros [Hin ->]%column_pruner_inv. cbn [columns rows]. split; [|split].
  - intros c Hc. split.
    + rewrite !list_elem_of_filter. unfold pruned in Hc.
      rewrite !elem_of_cons in Hc. rewrite !not_elem_of_cons. tauto.
    + intros r' (r1 & -> & (r & -> & _)%list_elem_of_fmap)%list_elem_of_fmap.
      rewrite delete_labels_app. by apply lookup_delete_labels_elem.
  - by rewrite !length_fmap.
  - unfold column_pruner. rewrite drop_None; [done|]. cbn [columns].
    intros [HID _]%Forall_cons. rewrite !list_elem_of_filter in HID.
    destruct HID as [_ [HID _]]. apply HID. by left.
Qed.


(** X3: the pruner is one drop of the eight labels: its frame is the frame of
    [df.drop] with the eight labels at once, and the counts it prints are the
    numbers of unique values of the twenty categorical labels in its
    input. *)
Theorem column_pruner_is_one_drop (df out : DataFrame) printed :
  column_pruner df = Some (printed, out) →
  drop pruned df = Some out ∧
  printed = (λ i, (i, unique_size i df)) <$> cat_names.
Proof.
  intros H. pose proof (column_pruner_inv _ _ _ H) as [Hin Hout].
  unfold column_pruner in H.
  change pruned with (["ID"; "Description"; "Distance(mi)"; "End_Time";
                       "End_Lat"; "End_Lng"]
                      ++ ["Country"; "Turning_Loop"])%list.
  rewrite <- drop_twice; cycle 1.
  { intros c Hc. rewrite !not_elem_of_cons.
    repeat (apply elem_of_cons in Hc as [->|Hc];
            [by repeat split; try apply not_elem_of_nil|]).
    by apply elem_of_nil in Hc. }
  destruct (drop _ df) as [d1|] eqn:H1; [|done].
  cbn [mbind option_bind] in *.
  destruct (require cat_names d1) as [[]|] eqn:Hreq; [|done].
  cbn [mbind option_bind] in H.
  destruct (drop ["Country"; "Turning_Loop"] d1) as [d2|]; [|done].
  apply drop_inv in H1 as [_ ->].
  assert (∀ c, c ∉ ["ID"; "Description"; "Distance(mi)"; "End_Time";
                     "End_Lat"; "End_Lng"] →
            unique_size c
              {| columns := filter (λ c, c ∉ ["ID"; "Description";
                              "Distance(mi)"; "End_Time"; "End_Lat";
                              "End_Lng"]) (columns df);
                 rows := (λ r : row, foldr delete r ["ID"; "Description";
                            "Distance(mi)"; "End_Time"; "End_Lat"; "End_Lng"])
                         <$> rows df |}
            = unique_size c df) as Hsize.
  { intros c Hc. apply unique_size_cells. cbn [rows].
    rewrite <- list_fmap_compose. apply list_fmap_ext. intros j r _.
    unfold compose. by apply lookup_delete_labels_not_elem. }
  injection H as <- <-. split; [done|].
  unfold cat_names. cbn [fmap list_fmap].
  repeat (f_equal; [f_equal; apply Hsize; rewrite !not_elem_of_cons;
                    repeat split; try done; apply not_elem_of_nil|]).
  do 2 f_equal. apply Hsize. rewrite !not_elem_of_cons.
  repeat split; try done. apply not_elem_of_nil.
Qed.

Lemma column_pruner_is_one_drop_witness :
  ∃ printed out, column_pruner right_side = Some (printed, out) ∧
    drop pruned right_side = Some out ∧
    printed = (λ i, (i, unique_size i right_side)) <$> cat_names.
Proof.
  assert (is_Some (column_pruner right_side)) as [[printed out] Hout]
    by (apply (bool_decide_unpack _); vm_compute; exact I).
  exists printed, out. split; [exact Hout|].
  exact (column_pruner_is_one_drop right_side out printed Hout).
Defined.

Lemma column_pruner_not_repeatable_witness :
  ∃ printed out, column_pruner right_side = Some (printed, out) ∧
    (∀ c, c ∈ pruned →
       (c ∉ columns out) ∧ ∀ r : row, r ∈ rows out → r !! c = None) ∧
    length (rows out) = length (rows right_side) ∧
    column_pruner out = None.
Proof.
  assert (is_Some (column_pruner right_side)) as [[printed out] Hout]
    by (apply (bool_decide_unpack _); vm_compute; exact I).
  exists printed, out. split; [exact Hout|].
  exact (column_pruner_not_repeatable right_side out printed Hout).
Defined.

(** ** Wind direction: a second pass changes nothing *)

Lemma recode_wind_again c : recode_wind (recode_wind c) = recode_wind c.
Proof.
  destruct c as [[q|s|b|t]|]; try done.
  destruct (recode_wind_string s) as [(t & _ & Ht & ->)|[_ E]].
  - unfold wind_points in Ht.
    repeat (apply elem_of_cons in Ht as [->|Ht]; [reflexivity|]).
    by apply elem_of_nil in Ht.
  - by rewrite !E.
Qed.

Lemma add_label_again c cols : add_label c (add_label c cols) = add_label c cols.
Proof.
  unfold add_label at 1. rewrite bool_decide_eq_true_2; [done|].
  apply elem_of_add_label. by left.
Qed.

Lemma canonical_wind_columns df :
  columns (canonical_wind df) = add_label "Wind_Direction" (columns df).
Proof.
  unfold canonical_wind, loc_set_const. cbn [columns loc_set].
  by rewrite !add_label_again.
Qed.

(** X4: the canonicalization of the wind direction is idempotent: no point it
    writes is a value it replaces. *)
Theorem canonical_wind_idempotent (df : DataFrame) :
  canonical_wind (canonical_wind df) = canonical_wind df.
Proof.
  assert (∀ d1 d2 : DataFrame,
            columns d1 = columns d2 → rows d1 = rows d2 → d1 = d2) as Hext.
  { intros [c1 r1] [c2 r2]. cbn. by intros -> ->. }
  apply Hext.
  - by rewrite !canonical_wind_columns, add_label_again.
  - apply list_eq. intros i.
    destruct (rows df !! i) as [r|] eqn:Hr.
    + destruct (canonical_wind_row df i r Hr) as (r1 & Hr1 & Hwind1).
      destruct (canonical_wind_row _ i r1 Hr1) as (r2 & Hr2 & Hwind2).
      destruct (canonical_wind_other _ i r1 Hr1) as (r2' & Hr2' & Hother).
      assert (r2' = r2) as -> by congruence.
      rewrite Hr1, Hr2. f_equal. apply map_eq. intros c.
      destruct (decide (c = "Wind_Direction")) as [->|Hne]; [|by apply Hother].
      change (wind r2 = wind r1).
      by rewrite Hwind2, Hwind1, recode_wind_again.
    + pose proof (canonical_wind_None df i Hr) as Hr1.
      by rewrite (canonical_wind_None _ i Hr1), Hr1.
Qed.

(** ** Categorical normalizer: what it leaves alone, and when it raises *)

Lemma canonical_wind_row_inv df i (r1 : row) :
  rows (canonical_wind df) !! i = Some r1 →
  ∃ r : row, rows df !! i = Some r ∧
    wind r1 = recode_wind (wind r) ∧
    ∀ c, c ≠ "Wind_Direction" → r1 !! c = r !! c.
Proof.
  intros Hr1. destruct (rows df !! i) as [r|] eqn:Hr.
  - destruct (canonical_wind_row df i r Hr) as (r1' & Hr1' & Hwind).
    destruct (canonical_wind_other df i r Hr) as (r1'' & Hr1'' & Hother).
    assert (r1' = r1) as -> by congruence.
    assert (r1'' = r1) as -> by congruence. by exists r.
  - by rewrite canonical_wind_None in Hr1.
Qed.

Lemma weather_flags_other df i (r : row) :
  rows df !! i = Some r →
  ∃ r' : row, rows (weather_flags df) !! i = Some r' ∧
    ∀ c, c ∉ weather → r' !! c = r !! c.
Proof.
  intros Hr. unfold weather_flags. cbv zeta.
  destruct (weather_flag_step "Clear" "Clear" _ i r Hr) as (r1 & H1 & _ & O1).
  destruct (weather_flag_step "Cloud" "Cloud|Overcast" _ i r1 H1)
    as (r2 & H2 & _ & O2).
  destruct (weather_flag_step "Rain" "Rain|storm" _ i r2 H2)
    as (r3 & H3 & _ & O3).
  destruct (weather_flag_step "Heavy_Rain"
              "Heavy Rain|Rain Shower|Heavy T-Storm|Heavy Thunderstorms"
              _ i r3 H3) as (r4 & H4 & _ & O4).
  destruct (weather_flag_step "Snow" "Snow|Sleet|Ice" _ i r4 H4)
    as (r5 & H5 & _ & O5).
  destruct (weather_flag_step "Heavy_Snow"
              "Heavy Snow|Heavy Sleet|Heavy Ice Pellets|Snow Showers|Squalls"
              _ i r5 H5) as (r6 & H6 & _ & O6).
  destruct (weather_flag_step "Fog" "Fog" _ i r6 H6) as (r7 & H7 & _ & O7).
  exists r7. split; [done|]. intros c Hc. unfold weather in Hc.
  repeat (apply not_elem_of_cons in Hc as [? Hc]).
  rewrite O7, O6, O5, O4, O3, O2, O1; done.
Qed.

Lemma weather_flags_None df i :
  rows df !! i = None → rows (weather_flags df) !! i = None.
Proof.
  intros Hr. unfold weather_flags, weather_flag. cbv zeta.
  by rewrite !rows_assign, Hr.
Qed.

Lemma null_flags_None df i :
  rows df !! i = None → rows (null_flags df) !! i = None.
Proof.
  intros Hr. unfold null_flags, weather. cbn [foldl].
  by rewrite !rows_loc_set, Hr.
Qed.

(** The cells of a row after the normalizer: the seven flags by their
    patterns, the wind direction by the table, no condition, and every other
    cell as it was. *)
Lemma categorical_normalizer_cells df :
  normalizer_input df →
  ∃ out, categorical_normalizer df = Some out ∧
    length (rows out) = length (rows df) ∧
    (∀ c, c ∈ columns out ↔
          c ≠ "Weather_Condition" ∧ (c ∈ weather ∨ c ∈ columns df)) ∧
    ∀ i (r : row), rows df !! i = Some r →
      ∃ r' : row, rows out !! i = Some r' ∧
        (∀ c pat, (c, pat) ∈ flag_patterns →
           r' !! c = match weather_condition r with
                     | None => None
                     | Some v => where_1_0 (str_contains pat (Some v))
                     end) ∧
        r' !! "Weather_Condition" = None ∧
        wind r' = recode_wind (wind r) ∧
        ∀ c, c ∉ weather → c ≠ "Weather_Condition" → c ≠ "Wind_Direction" →
             r' !! c = r !! c.
Proof.
  intros Hin.
  destruct (categorical_normalizer_rows df Hin) as (out & Hout & Hcols & Hrows).
  exists out. split; [done|].
  destruct Hin as (Hwd & Hwc & Hstr & Hobj).
  unfold categorical_normalizer in Hout.
  rewrite require_Some in Hout by (repeat constructor; done).
  cbn [mbind option_bind] in Hout.
  rewrite option_guard_True in Hout by by apply canonical_wind_keeps_conditions.
  rewrite option_guard_True in Hout
    by by apply canonical_wind_keeps_object_column.
  apply drop_inv in Hout as [_ ->]. cbn [columns rows] in *.
  split; [|split].
  - unfold null_flags, weather_flags, weather_flag, weather, canonical_wind,
      loc_set_const. cbn [foldl rows assign loc_set]. by rewrite !length_fmap.
  - intros c. rewrite list_elem_of_filter, list_elem_of_singleton.
    unfold null_flags, weather_flags, canonical_wind, weather_flag,
      loc_set_const, weather.
    cbn [foldl columns assign loc_set]. rewrite !elem_of_add_label.
    rewrite !elem_of_cons, elem_of_nil.
    split; [|tauto]. intros [Hne Hc]. split; [done|].
    repeat (destruct Hc as [->|Hc]; [tauto|]). tauto.
  - intros i r Hr. destruct (Hrows i r Hr) as (r' & Hr' & Hflags).
    exists r'. split; [done|]. split; [done|].
    destruct (canonical_wind_row df i r Hr) as (r1 & Hr1 & Hwind).
    destruct (canonical_wind_other df i r Hr) as (r1' & Hr1' & Hsame).
    assert (r1' = r1) as -> by congruence.
    destruct (weather_flags_other _ i r1 Hr1) as (r2 & Hr2 & Hother).
    destruct (weather_flags_row _ i r1 Hr1) as (r2' & Hr2' & Hwc2 & _).
    assert (r2' = r2) as -> by congruence.
    destruct (null_flags_row _ i r2 Hr2) as (r3 & Hr3 & Hnull).
    rewrite list_lookup_fmap, Hr3 in Hr'. injection Hr' as <-.
    split; [apply lookup_delete_eq|].
    assert (∀ c, c ∉ weather → c ≠ "Weather_Condition" →
              delete "Weather_Condition" r3 !! c = r1 !! c) as Hcell.
    { intros c Hc Hne. rewrite lookup_delete_ne by done.
      rewrite Hnull, decide_False by (by intros [? _]). by apply Hother. }
    split.
    + unfold wind in *. rewrite Hcell; [done| |done].
      unfold weather. rewrite !not_elem_of_cons. repeat split; try done.
      apply not_elem_of_nil.
    + intros c Hc Hne Hne'. rewrite Hcell by done. by apply Hsame.
Qed.

Lemma categorical_normalizer_inv df out :
  categorical_normalizer df = Some out → normalizer_input df.
Proof.
  unfold categorical_normalizer. intros H.
  destruct (require _ df) as [[]|] eqn:Hreq; [|done].
  apply require_inv in Hreq. apply Forall_cons in Hreq as [Hwd Hreq].
  apply Forall_cons in Hreq as [Hwc _]. cbn [mbind option_bind] in H.
  rewrite option_guard_decide in H.
  destruct (decide (Forall _ _)) as [Hstr|]; [|done].
  rewrite option_guard_decide in H.
  destruct (decide (object_column _ _)) as [Hobj|]; [|done].
  split; [done|]. split; [done|]. split.
  - apply Forall_lookup. intros i r Hr.
    destruct (canonical_wind_other df i r Hr) as (r1 & Hr1 & Hsame).
    pose proof (Forall_lookup_1 _ _ _ _ Hstr Hr1) as Hs. cbv beta in Hs.
    unfold weather_condition in *. by rewrite Hsame in Hs.
  - destruct Hobj as [Hnil|Hex].
    + left. apply (f_equal length) in Hnil.
      unfold canonical_wind, loc_set_const in Hnil.
      cbn [rows loc_set] in Hnil. rewrite !length_fmap in Hnil.
      by destruct (rows df).
    + right. apply Exists_exists in Hex as (r1 & Hr1 & Hs).
      apply list_elem_of_lookup in Hr1 as [i Hi].
      destruct (canonical_wind_row_inv df i r1 Hi) as (r & Hr & _ & Hsame).
      apply Exists_exists. exists r.
      split; [by eapply list_elem_of_lookup_2|]. by rewrite <- Hsame.
Qed.

(** X5: the normalizer returns a frame exactly on the frames that have the two
    columns, hold strings or nulls as conditions, and hold a string in some row
    unless they have no row: a missing label, a condition that is a number, or
    a column of nulls only makes it raise. *)
Theorem categorical_normalizer_succeeds_iff (df : DataFrame) :
  is_Some (categorical_normalizer df) ↔ normalizer_input df.
Proof.
  split.
  - intros [out H]. by eapply categorical_normalizer_inv.
  - intros Hin. destruct (categorical_normalizer_cells df Hin) as (out & -> & _).
    by eexists.
Qed.

(** X6: the normalizer keeps the rows and their order, takes the condition out of
    the frame, adds the seven flags, and leaves every cell outside the flags
    and the wind direction as it was. *)
Theorem categorical_normalizer_keeps_other_cells (df : DataFrame) :
  normalizer_input df →
  ∃ out, categorical_normalizer df = Some out ∧
    length (rows out) = length (rows df) ∧
    (∀ c, c ∈ columns out ↔
          c ≠ "Weather_Condition" ∧ (c ∈ weather ∨ c ∈ columns df)) ∧
    ∀ i (r : row), rows df !! i = Some r →
      ∃ r' : row, rows out !! i = Some r' ∧
        r' !! "Weather_Condition" = None ∧
        wind r' = recode_wind (wind r) ∧
        ∀ c, c ∉ weather → c ≠ "Weather_Condition" → c ≠ "Wind_Direction" →
             r' !! c = r !! c.
Proof.
  intros Hin.
  destruct (categorical_normalizer_cells df Hin)
    as (out & Hout & Hlen & Hcols & Hrows).
  exists out. do 3 (split; [done|]). intros i r Hr.
  destruct (Hrows i r Hr) as (r' & Hr' & _ & Hrest). by exists r'.
Qed.

Lemma categorical_normalizer_keeps_other_cells_witness :
  ∃ out, categorical_normalizer weathers = Some out ∧
    length (rows out) = length (rows weathers) ∧
    (∀ c, c ∈ columns out ↔
          c ≠ "Weather_Condition" ∧ (c ∈ weather ∨ c ∈ columns weathers)) ∧
    ∀ i (r : row), rows weathers !! i = Some r →
      ∃ r' : row, rows out !! i = Some r' ∧
        r' !! "Weather_Condition" = None ∧
        wind r' = recode_wind (wind r) ∧
        ∀ c, c ∉ weather → c ≠ "Weather_Condition" → c ≠ "Wind_Direction" →
             r' !! c = r !! c.
Proof.
  apply (categorical_normalizer_keeps_other_cells weathers).
  exact normalizer_input_weathers.
Defined.



(** X8: the normalizer cannot run on its own output: the condition is no more a
    label, and the first statement that reads it raises. *)
Theorem categorical_normalizer_not_repeatable (df out : DataFrame) :
  categorical_normalizer df = Some out → categorical_normalizer out = None.
Proof.
  intros Hout. pose proof (categorical_normalizer_inv _ _ Hout) as Hin.
  destruct (categorical_normalizer_cells df Hin) as (out' & Hout' & _ & Hcols & _).
  assert (out' = out) as -> by congruence.
  destruct (categorical_normalizer out) as [out2|] eqn:H2; [|done].
  apply categorical_normalizer_inv in H2 as (_ & Hwc & _).
  apply Hcols in Hwc as [Hne _]. done.
Qed.

Lemma categorical_normalizer_not_repeatable_witness :
  ∃ out, categorical_normalizer weathers = Some out ∧
         categorical_normalizer out = None.
Proof.
  assert (is_Some (categorical_normalizer weathers)) as [out Hout]
    by (apply (bool_decide_unpack _); vm_compute; exact I).
  exists out. split; [exact Hout|].
  exact (categorical_normalizer_not_repeatable weathers out Hout).
Defined.

(** ** Heavy snow without snow *)






Example flags_of_winter :
  (λ df, (λ r : row, (r !! "Heavy_Snow", r !! "Snow")) <$> rows df)
    <$> categorical_normalizer winter
  = Some [(Some (num 1), Some (num 0));
          (Some (num 1), Some (num 1));
          (Some (num 1), Some (num 1))].
Proof. vm_compute. reflexivity. Qed.

(** ** Temporal feature extractor: the clock, the other cells, the failures *)

Lemma minutes_number h m :
  (Q2Qc (inject_Z h) * Q2Qc (inject_Z 60) + Q2Qc (inject_Z m))%Qc
  = Q2Qc (inject_Z (h * 60 + m)).
Proof.
  apply Qc_is_canon. unfold Qcplus, Qcmult. cbn [this Q2Qc].
  rewrite !Qred_correct, inject_Z_plus, inject_Z_mult. reflexivity.
Qed.

Lemma temporal_feature_extractor_cells df :
  "Weather_Timestamp" ∈ columns df →
  "Start_Time" ∈ columns df →
  Forall timed (rows df) →
  ∃ out, temporal_feature_extractor df = Some out ∧
    length (rows out) = length (rows df) ∧
    (∀ c, c ∈ columns out ↔
          c ≠ "Weather_Timestamp" ∧ (c ∈ time_features ∨ c ∈ columns df)) ∧
    ∀ i (r : row) t, rows df !! i = Some r → start_time r = Some t →
      ∃ r' : row, rows out !! i = Some r' ∧
        r' !! "Year" = Some (num (dt_year t)) ∧
        r' !! "Month" = Some (num (dt_month t)) ∧
        r' !! "Weekday" = Some (num (weekday t)) ∧
        r' !! "Hour" = Some (num (dt_hour t)) ∧
        r' !! "Minute" = Some (num (dt_hour t * 60 + dt_minute t)) ∧
        r' !! "Weather_Timestamp" = None ∧
        ∀ c, c ∉ time_features → c ≠ "Weather_Timestamp" → r' !! c = r !! c.
Proof.
  intros Hwt Hst Htimed. unfold temporal_feature_extractor.
  rewrite require_Some by (repeat constructor; done).
  rewrite drop_Some by (repeat constructor; done). cbn [mbind option_bind].
  destruct (timed_starts _ Htimed) as (starts & Hstarts & Hvalid).
  rewrite (proj2 (mapM_Some _ _ starts)); cycle 1.
  { apply Forall2_fmap_l. eapply Forall2_impl; [exact Hstarts|].
    intros r t Hrt. unfold compose.
    by rewrite start_time_drop_weather_timestamp. }
  cbn [mbind option_bind]. rewrite nday_spec by done. cbn [mbind option_bind].
  eexists. split; [reflexivity|]. split; [|split].
  - cbn [rows assign assign_values]. rewrite !length_fmap, length_zip_with.
    rewrite !length_fmap. rewrite (Forall2_length _ _ _ Hstarts). lia.
  - intros c. cbn [columns assign assign_values]. rewrite !elem_of_add_label.
    rewrite list_elem_of_filter, list_elem_of_singleton. unfold time_features.
    rewrite !elem_of_cons, elem_of_nil. split; [|tauto].
    intros Hc. repeat (destruct Hc as [->|Hc]; [split; [done|tauto]|]). tauto.
  - intros i r t Hr Ht.
    destruct (Forall2_lookup_l _ _ _ _ _ Hstarts Hr) as (t' & Ht' & Hrt').
    assert (t' = t) as -> by congruence.
    rewrite !rows_assign. cbn [rows assign_values].
    rewrite lookup_zip_with, !list_lookup_fmap, !rows_assign. cbn [rows].
    rewrite list_lookup_fmap, Hr, Ht'.
    cbn -[set_cell num weekday from_start number_at start_time].
    eexists. split; [reflexivity|].
    set (r0 := delete "Weather_Timestamp" r).
    assert (start_time r0 = Some t) as Hr0
      by (rewrite <- Ht; apply (start_time_drop_weather_timestamp r)).
    assert (from_start dt_year r0 = Some (num (dt_year t))) as ->
      by by unfold from_start; rewrite Hr0.
    set (r1 := set_cell "Year" _ r0).
    assert (start_time r1 = Some t) as Hr1
      by by unfold r1; rewrite start_time_set_cell.
    assert (from_start dt_month r1 = Some (num (dt_month t))) as ->
      by by unfold from_start; rewrite Hr1.
    set (r2 := set_cell "Month" _ r1).
    assert (start_time r2 = Some t) as Hr2
      by by unfold r2; rewrite start_time_set_cell.
    assert (from_start weekday r2 = Some (num (weekday t))) as ->
      by by unfold from_start; rewrite Hr2.
    set (r3 := set_cell "Weekday" _ r2).
    set (r4 := <["Day" := _]> r3).
    assert (start_time r4 = Some t) as Hr4.
    { unfold start_time, r4. rewrite lookup_insert_ne by done.
      fold (start_time r3). unfold r3. by rewrite start_time_set_cell. }
    assert (from_start dt_hour r4 = Some (num (dt_hour t))) as ->
      by by unfold from_start; rewrite Hr4.
    set (r5 := set_cell "Hour" _ r4).
    assert (start_time r5 = Some t) as Hr5
      by by unfold r5; rewrite start_time_set_cell.
    assert (number_at "Hour" r5 = Some (Q2Qc (inject_Z (dt_hour t)))) as ->.
    { unfold number_at, r5. by rewrite lookup_set_cell_eq. }
    rewrite Hr5. cbn [mbind option_bind]. rewrite minutes_number.
    fold (num (dt_hour t * 60 + dt_minute t)).
    repeat split.
    + rewrite lookup_set_cell_ne by done. unfold r5.
      rewrite lookup_set_cell_ne by done. unfold r4.
      rewrite lookup_insert_ne by done. unfold r3, r2.
      rewrite !lookup_set_cell_ne by done. apply lookup_set_cell_eq.
    + rewrite lookup_set_cell_ne by done. unfold r5.
      rewrite lookup_set_cell_ne by done. unfold r4.
      rewrite lookup_insert_ne by done. unfold r3.
      rewrite !lookup_set_cell_ne by done. apply lookup_set_cell_eq.
    + rewrite lookup_set_cell_ne by done. unfold r5.
      rewrite lookup_set_cell_ne by done. unfold r4.
      rewrite lookup_insert_ne by done. apply lookup_set_cell_eq.
    + rewrite lookup_set_cell_ne by done. apply lookup_set_cell_eq.
    + apply lookup_set_cell_eq.
    + rewrite lookup_set_cell_ne by done. unfold r5.
      rewrite lookup_set_cell_ne by done. unfold r4.
      rewrite lookup_insert_ne by done. unfold r3, r2, r1.
      rewrite !lookup_set_cell_ne by done. apply lookup_delete_eq.
    + intros c Hc Hne. unfold time_features in Hc.
      repeat (apply not_elem_of_cons in Hc as [? Hc]).
      rewrite lookup_set_cell_ne by done. unfold r5.
      rewrite lookup_set_cell_ne by done. unfold r4.
      rewrite lookup_insert_ne by done. unfold r3, r2, r1.
      rewrite !lookup_set_cell_ne by done. by apply lookup_delete_ne.
Qed.

(** X10: the hour and the minute of the day: [Minute] is 60 times the hour plus the
    minute of the start, between 0 and 1439 for a start on the clock. *)
Theorem minute_of_the_day (df : DataFrame) (i : nat) (r : row) t :
  "Weather_Timestamp" ∈ columns df →
  "Start_Time" ∈ columns df →
  Forall timed (rows df) →
  rows df !! i = Some r →
  start_time r = Some t →
  clocked t →
  ∃ out (r' : row) k, temporal_feature_extractor df = Some out ∧
    rows out !! i = Some r' ∧
    r' !! "Hour" = Some (num (dt_hour t)) ∧
    r' !! "Minute" = Some (num k) ∧
    k = dt_hour t * 60 + dt_minute t ∧ 0 ≤ k ≤ 1439.
Proof.
  intros Hwt Hst Htimed Hr Ht [Hh Hm].
  destruct (temporal_feature_extractor_cells df Hwt Hst Htimed)
    as (out & Hout & _ & _ & Hrows).
  destruct (Hrows i r t Hr Ht) as (r' & Hr' & _ & _ & _ & Hhour & Hmin & _).
  exists out, r', (dt_hour t * 60 + dt_minute t). repeat split; try done; lia.
Qed.

Lemma minute_of_the_day_witness :
  ∃ out (r' : row) k, temporal_feature_extractor march_first = Some out ∧
    rows out !! 1%nat = Some r' ∧
    r' !! "Hour" = Some (num 17) ∧
    r' !! "Minute" = Some (num k) ∧
    k = 17 * 60 + 5 ∧ 0 ≤ k ≤ 1439.
Proof.
  apply (minute_of_the_day march_first 1
           (list_to_map [("Start_Time", VTime (mkTimestamp 2020 3 1 17 5))])
           (mkTimestamp 2020 3 1 17 5)).
  - apply (bool_decide_unpack _). vm_compute. exact I.
  - apply (bool_decide_unpack _). vm_compute. exact I.
  - repeat constructor; eexists; (split; [vm_compute; reflexivity|simpl; lia]).
  - reflexivity.
  - vm_compute. reflexivity.
  - unfold clocked. simpl. lia.
Defined.

(** X11: the extractor keeps the rows and their order, takes the weather
    timestamp out of the frame, adds its six features, among them the year
    and the month of the start, and leaves every other cell as it was. *)
Theorem temporal_feature_extractor_keeps_other_cells (df : DataFrame) :
  "Weather_Timestamp" ∈ columns df →
  "Start_Time" ∈ columns df →
  Forall timed (rows df) →
  ∃ out, temporal_feature_extractor df = Some out ∧
    length (rows out) = length (rows df) ∧
    (∀ c, c ∈ columns out ↔
          c ≠ "Weather_Timestamp" ∧ (c ∈ time_features ∨ c ∈ columns df)) ∧
    ∀ i (r : row) t, rows df !! i = Some r → start_time r = Some t →
      ∃ r' : row, rows out !! i = Some r' ∧
        r' !! "Year" = Some (num (dt_year t)) ∧
        r' !! "Month" = Some (num (dt_month t)) ∧
        r' !! "Weather_Timestamp" = None ∧
        ∀ c, c ∉ time_features → c ≠ "Weather_Timestamp" → r' !! c = r !! c.
Proof.
  intros Hwt Hst Htimed.
  destruct (temporal_feature_extractor_cells df Hwt Hst Htimed)
    as (out & Hout & Hlen & Hcols & Hrows).
  exists out. do 3 (split; [done|]). intros i r t Hr Ht.
  destruct (Hrows i r t Hr Ht)
    as (r' & Hr' & Hy & Hm & _ & _ & _ & Hwt' & Hother).
  by exists r'.
Qed.

Lemma temporal_feature_extractor_keeps_other_cells_witness :
  ∃ out, temporal_feature_extractor march_first = Some out ∧
    length (rows out) = length (rows march_first) ∧
    (∀ c, c ∈ columns out ↔
          c ≠ "Weather_Timestamp" ∧
          (c ∈ time_features ∨ c ∈ columns march_first)) ∧
    ∀ i (r : row) t, rows march_first !! i = Some r → start_time r = Some t →
      ∃ r' : row, rows out !! i = Some r' ∧
        r' !! "Year" = Some (num (dt_year t)) ∧
        r' !! "Month" = Some (num (dt_month t)) ∧
        r' !! "Weather_Timestamp" = None ∧
        ∀ c, c ∉ time_features → c ≠ "Weather_Timestamp" → r' !! c = r !! c.
Proof.
  apply (temporal_feature_extractor_keeps_other_cells march_first).
  - apply (bool_decide_unpack _). vm_compute. exact I.
  - apply (bool_decide_unpack _). vm_compute. exact I.
  - repeat constructor; eexists; (split; [vm_compute; reflexivity|simpl; lia]).
Defined.

(** X12: a start that is null, or is no timestamp, in any row makes the extractor
    raise for the whole frame: the month of the column is then no index into
    the table of the days. *)
Theorem temporal_feature_extractor_raises (df : DataFrame) :
  Exists (λ r : row, start_time r = None) (rows df) →
  temporal_feature_extractor df = None.
Proof.
  intros Hex. unfold temporal_feature_extractor.
  destruct (require _ df) as [[]|]; [|done]. cbn [mbind option_bind].
  destruct (drop _ df) as [d0|] eqn:Hdrop; [|done].
  apply drop_inv in Hdrop as [_ ->]. cbn [mbind option_bind rows].
  destruct (mapM start_time _) as [starts|] eqn:Hstarts; [|done].
  exfalso. assert (is_Some (mapM start_time
    ((λ r : row, foldr delete r ["Weather_Timestamp"]) <$> rows df))) as Hsome
    by by eexists.
  apply mapM_is_Some in Hsome. rewrite Forall_fmap in Hsome.
  apply Exists_exists in Hex as (r & Hr & Hnone).
  pose proof (proj1 (Forall_forall _ _) Hsome r Hr) as [t Ht].
  unfold compose in Ht. rewrite start_time_drop_weather_timestamp in Ht.
  congruence.
Qed.

Lemma temporal_feature_extractor_raises_witness :
  temporal_feature_extractor unparsed_start = None.
Proof.
  apply (temporal_feature_extractor_raises unparsed_start).
  apply (bool_decide_unpack _). vm_compute. exact I.
Defined.

(** ** The day of the year orders the dates of a common year *)

Lemma common_year_cases m d :
  1 ≤ m ≤ 12 →
  1 ≤ d ≤ default 0 (month_lengths !! Z.to_nat m) →
  ∃ before len, non_leap_days_before m = before ∧ 1 ≤ d ≤ len ∧
    (m, before, len) ∈
      [(1, 0, 31); (2, 31, 28); (3, 59, 31); (4, 90, 30); (5, 120, 31);
       (6, 151, 30); (7, 181, 31); (8, 212, 31); (9, 243, 30); (10, 273, 31);
       (11, 304, 30); (12, 334, 31)].
Proof.
  intros Hm Hd.
  assert (m = 1 ∨ m = 2 ∨ m = 3 ∨ m = 4 ∨ m = 5 ∨ m = 6 ∨ m = 7 ∨ m = 8
          ∨ m = 9 ∨ m = 10 ∨ m = 11 ∨ m = 12) as Hcases by lia.
  repeat (destruct Hcases as [->|Hcases];
          [eexists _, _; split; [reflexivity|]; split; [exact Hd|];
           repeat first [by left|right]|]).
  subst. eexists _, _. split; [reflexivity|]. split; [exact Hd|].
  repeat first [by left|right].
Qed.

(** X13: on the dates of a year that is no leap year the day of the year lies
    between 1 and 365 and grows with the date: of two dates the earlier one, by
    month and then by day, has the smaller day of the year. *)
Theorem day_orders_common_year (t1 t2 : Timestamp) :
  in_common_year t1 →
  in_common_year t2 →
  ∃ d1 d2, nday [t1; t2] = Some [d1; d2] ∧
    1 ≤ d1 ≤ 365 ∧
    (d1 < d2 ↔
     dt_month t1 < dt_month t2 ∨
     (dt_month t1 = dt_month t2 ∧ dt_day t1 < dt_day t2)).
Proof.
  intros [Hm1 Hd1] [Hm2 Hd2].
  rewrite nday_spec by (constructor; [done|constructor; [done|constructor]]).
  eexists _, _. split; [reflexivity|].
  destruct (common_year_cases _ _ Hm1 Hd1) as (b1 & l1 & -> & Hb1 & Hin1).
  destruct (common_year_cases _ _ Hm2 Hd2) as (b2 & l2 & -> & Hb2 & Hin2).
  clear Hd1 Hd2.
  repeat (apply elem_of_cons in Hin1 as [[= Em1 -> ->]|Hin1]);
    try (by apply elem_of_nil in Hin1);
    repeat (apply elem_of_cons in Hin2 as [[= Em2 -> ->]|Hin2]);
    try (by apply elem_of_nil in Hin2); lia.
Qed.

Lemma day_orders_common_year_witness :
  ∃ d1 d2, nday [mkTimestamp 2021 2 28 23 59; mkTimestamp 2021 3 1 0 0]
           = Some [d1; d2] ∧
    1 ≤ d1 ≤ 365 ∧
    (d1 < d2 ↔
     2 < 3 ∨ (2 = 3 ∧ 28 < 1)).
Proof.
  apply (day_orders_common_year (mkTimestamp 2021 2 28 23 59)
           (mkTimestamp 2021 3 1 0 0)).
  - unfold in_common_year. simpl. lia.
  - unfold in_common_year. simpl. lia.
Defined.

(** In a leap year the 29th of February gets the day of the 1st of March. *)
Example nday_leap_day :
  nday [mkTimestamp 2020 2 29 12 0; mkTimestamp 2020 3 1 12 0]
  = Some [60; 60].
Proof. reflexivity. Qed.

(** ** The median *)







(** ** Missing data and duplicates: when the stage raises *)




(** ** Missing data and duplicates: the rows and their values *)

Lemma filled_from_fill mP mW (r : row) :
  filled_from r
    (fill_cell "Wind_Chill(F)" mW (fill_cell "Precipitation(in)" mP r)).
Proof.
  split.
  - intros c v Hc.
    assert (∀ c' m (r0 : row), r0 !! c = Some v →
              fill_cell c' m r0 !! c = Some v) as Hkeep.
    { intros c' m r0 H0. destruct (decide (c' = c)) as [->|Hne].
      - by rewrite fill_cell_same, H0.
      - by rewrite fill_cell_other. }
    by do 2 apply Hkeep.
  - intros c HP HW. by rewrite !fill_cell_other.
Qed.

(** X15: lines 274-300 lose no row that has the values the deletion asks for, but
    for duplicates, invent no row, and change no value: every row of the
    output is such a row of the input with its nulls of the two imputed
    columns filled, and every such row of the input has its filled row in the
    output. *)
Theorem resolve_rows_keeps_values (df out : DataFrame) :
  resolve_rows df = Some out →
  columns out = columns df ∧
  (length (rows out) ≤ length (rows df))%nat ∧
  (∀ r' : row, r' ∈ rows out →
     ∃ r : row, r ∈ rows df ∧ notnull_in low_missing r ∧ filled_from r r') ∧
  (∀ r : row, r ∈ rows df → notnull_in low_missing r →
     ∃ r' : row, r' ∈ rows out ∧ filled_from r r').
Proof.
  intros Hrun. pose proof (resolve_rows_inv _ _ Hrun) as Hin.
  destruct (resolve_rows_run df Hin) as (mP & mW & Hout & _).
  assert (out = resolved_with df mP mW) as ->
    by (unfold resolved_with; congruence).
  split; [done|]. split; [|split].
  - unfold resolved_with. cbn [rows drop_duplicates fillna kept_rows].
    etrans; [apply sublist_length|].
    + instantiate (1 := fill_cell "Wind_Chill(F)" mW <$>
                         (fill_cell "Precipitation(in)" mP <$>
                          filter (notnull_in low_missing) (rows df))).
      generalize (@nil row).
      induction (fill_cell "Wind_Chill(F)" mW <$> _) as [|x l IH]; intros seen.
      * constructor.
      * cbn [keep_first]. case_bool_decide; by constructor.
    + rewrite !length_fmap. apply length_filter.
  - intros r' (r & Hr & Hnotnull & ->)%resolved_row_origin.
    exists r. split; [done|]. split; [done|]. apply filled_from_fill.
  - intros r Hr Hnotnull.
    exists (fill_cell "Wind_Chill(F)" mW (fill_cell "Precipitation(in)" mP r)).
    split; [|apply filled_from_fill].
    unfold resolved_with. cbn [rows drop_duplicates fillna kept_rows].
    destruct (keep_first_covers []
                (fill_cell "Wind_Chill(F)" mW <$>
                 (fill_cell "Precipitation(in)" mP <$>
                  filter (notnull_in low_missing) (rows df)))
                (fill_cell "Wind_Chill(F)" mW
                   (fill_cell "Precipitation(in)" mP r))) as [?|Hnil];
      [|done|by apply elem_of_nil in Hnil].
    do 2 apply list_elem_of_fmap_2. by apply list_elem_of_filter.
Qed.

Lemma resolve_rows_keeps_values_witness :
  ∃ out, resolve_rows accidents = Some out ∧
  columns out = columns accidents ∧
  (length (rows out) ≤ length (rows accidents))%nat ∧
  (∀ r' : row, r' ∈ rows out →
     ∃ r : row, r ∈ rows accidents ∧ notnull_in low_missing r ∧
                filled_from r r') ∧
  (∀ r : row, r ∈ rows accidents → notnull_in low_missing r →
     ∃ r' : row, r' ∈ rows out ∧ filled_from r r').
Proof.
  assert (is_Some (resolve_rows accidents)) as [out Hout]
    by (apply (bool_decide_unpack _); vm_compute; exact I).
  exists out. split; [exact Hout|].
  exact (resolve_rows_keeps_values accidents out Hout).
Defined.

Lemma keep_first_sublist `{EqDecision A} (seen l : list A) :
  keep_first seen l `sublist_of` l.
Proof.
  revert seen. induction l as [|x l IH]; intros seen; [constructor|].
  cbn [keep_first]. case_bool_decide; by constructor.
Qed.

(** X16: outside the two imputed columns, the column of the output is the column
    of the input with some cells taken out: lines 274-300 keep the order of
    the rows. *)
Theorem resolve_rows_keeps_order (df out : DataFrame) c :
  resolve_rows df = Some out →
  c ≠ "Precipitation(in)" →
  c ≠ "Wind_Chill(F)" →
  ((λ r : row, r !! c) <$> rows out)
    `sublist_of` ((λ r : row, r !! c) <$> rows df).
Proof.
  intros Hrun HP HW. pose proof (resolve_rows_inv _ _ Hrun) as Hin.
  destruct (resolve_rows_run df Hin) as (mP & mW & Hout & _).
  assert (out = resolved_with df mP mW) as ->
    by (unfold resolved_with; congruence).
  unfold resolved_with. cbn [rows drop_duplicates fillna kept_rows].
  etrans; [apply fmap_sublist, keep_first_sublist|].
  rewrite <- !list_fmap_compose.
  etrans; [|apply fmap_sublist, (sublist_filter (notnull_in low_missing))].
  erewrite list_fmap_ext; [reflexivity|].
  intros i r _. unfold compose. by rewrite !fill_cell_other.
Qed.

Lemma resolve_rows_keeps_order_witness :
  ∃ out, resolve_rows accidents = Some out ∧
    ((λ r : row, r !! "Severity") <$> rows out)
      `sublist_of` ((λ r : row, r !! "Severity") <$> rows accidents).
Proof.
  assert (is_Some (resolve_rows accidents)) as [out Hout]
    by (apply (bool_decide_unpack _); vm_compute; exact I).
  exists out. split; [exact Hout|].
  by apply (resolve_rows_keeps_order accidents out "Severity" Hout).
Defined.

(** ** Missing data and duplicates: what is imputed *)





(** ** Target binarizer: the two classes *)

Lemma target_binarizer_rows df :
  "Severity" ∈ columns df →
  target_binarizer df
  = Some {| columns := filter (λ c, c ∉ ["Severity"])
                         (add_label "Severity4"
                            (add_label "Severity4" (columns df)));
            rows := binarized <$> rows df |}.
Proof.
  intros Hsev. unfold target_binarizer.
  rewrite require_Some; cycle 1.
  { repeat constructor. cbn [columns assign]. apply elem_of_add_label. auto. }
  cbn [mbind option_bind]. rewrite drop_Some; cycle 1.
  { repeat constructor. cbn [columns assign loc_set_const loc_set].
    rewrite !elem_of_add_label. auto. }
  cbn [columns rows assign loc_set loc_set_const]. do 2 f_equal.
  rewrite <- !list_fmap_compose. apply list_fmap_ext. intros i r _.
  unfold compose, binarized. cbn [foldr]. f_equal.
  rewrite (lookup_set_cell_ne "Severity4" "Severity") by done.
  apply map_eq. intros c. destruct (decide (c = "Severity4")) as [->|Hne].
  - rewrite lookup_insert_eq.
    destruct (eq_num 4 (r !! "Severity")); apply lookup_set_cell_eq.
  - rewrite lookup_insert_ne by done.
    destruct (eq_num 4 (r !! "Severity"));
      by rewrite !lookup_set_cell_ne by done.
Qed.

Lemma target_binarizer_inv df out :
  target_binarizer df = Some out → "Severity" ∈ columns df.
Proof.
  unfold target_binarizer. intros H.
  destruct (require _ _) as [[]|] eqn:Hreq; [|done].
  apply require_inv, Forall_cons in Hreq as [Hsev _].
  cbn [columns assign] in Hsev. by apply elem_of_add_label in Hsev as [|].
Qed.

Lemma binarized_label (r : row) :
  binarized r !! "Severity4"
  = Some (num (if eq_num 4 (r !! "Severity") then 1 else 0)).
Proof.
  unfold binarized. rewrite lookup_delete_ne by done. apply lookup_insert_eq.
Qed.

Lemma count_fmap {A B} (f : A → B) (P : B → Prop) `{∀ y, Decision (P y)}
    (l : list A) :
  length (filter P (f <$> l)) = length (filter (λ x, P (f x)) l).
Proof.
  induction l as [|x l IH]; [done|]. rewrite fmap_cons, !filter_cons.
  destruct (decide (P (f x))); cbn [length]; by rewrite IH.
Qed.

Lemma count_complement {A} (P Q : A → Prop) `{∀ x, Decision (P x)}
    `{∀ x, Decision (Q x)} (l : list A) :
  (∀ x, P x ↔ ¬ Q x) →
  (length (filter P l) + length (filter Q l) = length l)%nat.
Proof.
  intros HPQ. induction l as [|x l IH]; [done|]. rewrite !filter_cons.
  destruct (decide (P x)) as [HP|HP], (decide (Q x)) as [HQ|HQ];
    cbn [length]; try lia.
  - by apply HPQ in HP.
  - exfalso. apply HP, HPQ, HQ.
Qed.

Lemma target_binarizer_tally (df : DataFrame) :
  "Severity" ∈ columns df →
  ∃ out, target_binarizer df = Some out ∧
    count_label "Severity4" 1 out
    = count_rows (λ r, eq_num 4 (r !! "Severity")) df ∧
    count_label "Severity4" 0 out
    = count_rows (λ r, negb (eq_num 4 (r !! "Severity"))) df ∧
    count_label "Severity4" 0 out + count_label "Severity4" 1 out
    = Z.of_nat (length (rows df)).
Proof.
  intros Hsev. rewrite target_binarizer_rows by done.
  eexists. split; [reflexivity|].
  unfold count_label, count_rows. cbn [rows]. rewrite !count_fmap.
  assert (∀ k (b : bool), eq_num k (Some (num (if b then 1 else 0)))
                          = bool_decide ((if b then 1 else 0) = k)) as Hnum.
  { intros k b. apply eq_num_num. }
  assert (length (filter (λ r : row,
                            eq_num 1 (binarized r !! "Severity4") = true)
                    (rows df))
          = length (filter (λ r : row, eq_num 4 (r !! "Severity") = true)
                      (rows df))) as E1.
  { f_equal. apply list_filter_iff. intros r.
    rewrite binarized_label, Hnum.
    by destruct (eq_num 4 (r !! "Severity")). }
  assert (length (filter (λ r : row,
                            eq_num 0 (binarized r !! "Severity4") = true)
                    (rows df))
          = length (filter (λ r : row,
                              negb (eq_num 4 (r !! "Severity")) = true)
                      (rows df))) as E0.
  { f_equal. apply list_filter_iff. intros r.
    rewrite binarized_label, Hnum.
    by destruct (eq_num 4 (r !! "Severity")). }
  rewrite E0, E1. split; [done|]. split; [done|].
  rewrite <- Nat2Z.inj_add. f_equal. apply count_complement.
  intros r. by destruct (eq_num 4 (r !! "Severity")).
Qed.

(** X18: the binarizer splits the rows into two classes: the rows whose severity is
    4 get the label 1, every other row, a row with no severity too, gets the
    label 0, and no row is left without a label. *)
Theorem target_binarizer_partitions (df : DataFrame) :
  "Severity" ∈ columns df →
  ∃ out, target_binarizer df = Some out ∧
    count_label "Severity4" 1 out
    = count_rows (λ r, eq_num 4 (r !! "Severity")) df ∧
    count_label "Severity4" 0 out
    = count_rows (λ r, negb (eq_num 4 (r !! "Severity"))) df ∧
    count_label "Severity4" 0 out + count_label "Severity4" 1 out
    = Z.of_nat (length (rows df)).
Proof. apply target_binarizer_tally. Qed.

Lemma target_binarizer_partitions_witness :
  ∃ out, target_binarizer severities = Some out ∧
    count_label "Severity4" 1 out
    = count_rows (λ r, eq_num 4 (r !! "Severity")) severities ∧
    count_label "Severity4" 0 out
    = count_rows (λ r, negb (eq_num 4 (r !! "Severity"))) severities ∧
    count_label "Severity4" 0 out + count_label "Severity4" 1 out
    = Z.of_nat (length (rows severities)).
Proof.
  apply (target_binarizer_partitions severities).
  apply (bool_decide_unpack _). vm_compute. exact I.
Defined.

(** X19: the binarizer keeps the rows, their order and every cell outside the two
    labels it writes and drops, and it cannot run on its own output: the
    severity is no more a label. *)
Theorem target_binarizer_keeps_other_cells (df out : DataFrame) :
  target_binarizer df = Some out →
  length (rows out) = length (rows df) ∧
  (∀ i (r : row), rows df !! i = Some r →
     ∃ r' : row, rows out !! i = Some r' ∧
       ∀ c, c ≠ "Severity" → c ≠ "Severity4" → r' !! c = r !! c) ∧
  target_binarizer out = None.
Proof.
  intros Hout. pose proof (target_binarizer_inv _ _ Hout) as Hsev.
  rewrite target_binarizer_rows in Hout by done. injection Hout as <-.
  cbn [rows]. split; [by rewrite length_fmap|]. split.
  - intros i r Hr. rewrite list_lookup_fmap, Hr. eexists.
    split; [reflexivity|]. intros c Hc Hc4. unfold binarized.
    by rewrite lookup_delete_ne, lookup_insert_ne.
  - destruct (target_binarizer _) as [out2|] eqn:H2; [|done].
    apply target_binarizer_inv in H2. cbn [columns] in H2.
    apply list_elem_of_filter in H2 as [Hne _]. exfalso. apply Hne. by left.
Qed.

Lemma target_binarizer_keeps_other_cells_witness :
  ∃ out, target_binarizer severities = Some out ∧
  length (rows out) = length (rows severities) ∧
  (∀ i (r : row), rows severities !! i = Some r →
     ∃ r' : row, rows out !! i = Some r' ∧
       ∀ c, c ≠ "Severity" → c ≠ "Severity4" → r' !! c = r !! c) ∧
  target_binarizer out = None.
Proof.
  assert (is_Some (target_binarizer severities)) as [out Hout]
    by (apply (bool_decide_unpack _); vm_compute; exact I).
  exists out. split; [exact Hout|].
  exact (target_binarizer_keeps_other_cells severities out Hout).
Defined.

(** ** Balancer: what the output is made of *)

Lemma balancer_rows df :
  "Severity4" ∈ columns df →
  balancer df
  = Some {| columns := columns df;
            rows := take cap (filter (λ r : row,
                                        eq_num 0 (r !! "Severity4") = true)
                                (rows df))
                    ++ take cap (filter (λ r : row,
                                           eq_num 1 (r !! "Severity4") = true)
                                   (rows df)) |}.
Proof.
  intros Hlabel. unfold balancer.
  by rewrite require_Some by (repeat constructor; done).
Qed.

Lemma balancer_inv df out :
  balancer df = Some out → "Severity4" ∈ columns df.
Proof.
  unfold balancer. intros H.
  destruct (require _ _) as [[]|] eqn:Hreq; [|done].
  by apply require_inv, Forall_cons in Hreq as [? _].
Qed.



(** X21: the balancer is idempotent: on its own output it returns this output. *)
Theorem balancer_idempotent (df out : DataFrame) :
  balancer df = Some out → balancer out = Some out.
Proof.
  intros Hout. pose proof (balancer_inv _ _ Hout) as Hlabel.
  rewrite balancer_rows in Hout by done. injection Hout as <-.
  rewrite balancer_rows by done. cbn [columns rows]. do 2 f_equal.
  set (zeros := take cap (filter (λ r : row, eq_num 0 (r !! "Severity4") = true)
                            (rows df))).
  set (ones := take cap (filter (λ r : row, eq_num 1 (r !! "Severity4") = true)
                           (rows df))).
  rewrite !filter_app.
  rewrite (filter_all (λ r : row, eq_num 0 (r !! "Severity4") = true) zeros)
    by apply (Forall_take_filter _).
  rewrite (filter_all (λ r : row, eq_num 1 (r !! "Severity4") = true) ones)
    by apply (Forall_take_filter _).
  rewrite (filter_none (λ r : row, eq_num 0 (r !! "Severity4") = true) ones);
    cycle 1.
  { eapply Forall_impl; [apply (Forall_take_filter _)|].
    intros r H1 H0. cbv beta in H1. by eapply eq_num_0_1. }
  rewrite (filter_none (λ r : row, eq_num 1 (r !! "Severity4") = true) zeros);
    cycle 1.
  { eapply Forall_impl; [apply (Forall_take_filter _)|].
    intros r H0 H1. cbv beta in H0. by eapply eq_num_0_1. }
  rewrite app_nil_r, app_nil_l.
  rewrite !take_ge; [done|unfold ones|unfold zeros]; rewrite length_take; lia.
Qed.

Lemma balancer_idempotent_witness :
  ∃ out, balancer three_to_one = Some out ∧ balancer out = Some out.
Proof.
  assert (is_Some (balancer three_to_one)) as [out Hout]
    by (apply (bool_decide_unpack _); vm_compute; exact I).
  exists out. split; [exact Hout|].
  exact (balancer_idempotent three_to_one out Hout).
Defined.

(** ** Binarizer and balancer, one after the other *)

Lemma balancer_tally df k :
  "Severity4" ∈ columns df →
  k = 0 ∨ k = 1 →
  ∃ out, balancer df = Some out ∧
    count_label "Severity4" k out
    = Z.min (count_label "Severity4" k df) 110000.
Proof.
  intros Hlabel Hk. rewrite balancer_rows by done.
  eexists. split; [reflexivity|].
  unfold count_label. cbn [rows]. rewrite filter_app, length_app.
  pose proof cap_value as Hcap.
  destruct Hk as [-> | ->].
  - rewrite count_take_same, (count_take_other _ 0 1) by apply eq_num_0_1.
    cbn [length]. lia.
  - rewrite count_take_same, (count_take_other _ 1 0)
      by (intros v H1 H0; by eapply eq_num_0_1).
    cbn [length]. lia.
Qed.

(** X22: from the severity to the balanced sample: on a frame with a severity the
    two stages succeed, and the sample holds the first 110000 rows of severity
    4, or all of them when they are fewer, and the first 110000 other rows, or
    all of them. *)
Theorem severity_to_balanced_counts (df : DataFrame) :
  "Severity" ∈ columns df →
  ∃ out, target_binarizer_balancer df = Some out ∧
    count_label "Severity4" 1 out
    = Z.min (count_rows (λ r, eq_num 4 (r !! "Severity")) df) 110000 ∧
    count_label "Severity4" 0 out
    = Z.min (count_rows (λ r, negb (eq_num 4 (r !! "Severity"))) df) 110000 ∧
    Z.of_nat (length (rows out))
    = count_label "Severity4" 0 out + count_label "Severity4" 1 out.
Proof.
  intros Hsev. unfold target_binarizer_balancer.
  destruct (target_binarizer_tally df Hsev)
    as (mid & Hmid & H1 & H0 & _).
  rewrite Hmid. cbn [mbind option_bind].
  assert ("Severity4" ∈ columns mid) as Hlabel.
  { rewrite target_binarizer_rows in Hmid by done. injection Hmid as <-.
    cbn [columns]. rewrite list_elem_of_filter, !elem_of_add_label.
    split; [|auto]. by rewrite list_elem_of_singleton. }
  destruct (balancer_tally mid 0 Hlabel) as (out & Hout & Hc0); [by left|].
  destruct (balancer_tally mid 1 Hlabel) as (out' & Hout' & Hc1); [by right|].
  assert (out' = out) as -> by congruence.
  exists out. split; [done|]. rewrite Hc0, Hc1, H0, H1.
  do 2 (split; [done|]). rewrite <- H0, <- H1, <- Hc0, <- Hc1.
  rewrite balancer_rows in Hout by done. injection Hout as <-.
  unfold count_label. cbn [rows]. rewrite !filter_app, !length_app.
  rewrite (filter_all (λ r : row, eq_num 0 (r !! "Severity4") = true)
             (take cap (filter (λ r : row, eq_num 0 (r !! "Severity4") = true)
                          (rows mid)))) by apply (Forall_take_filter _).
  rewrite (filter_all (λ r : row, eq_num 1 (r !! "Severity4") = true)
             (take cap (filter (λ r : row, eq_num 1 (r !! "Severity4") = true)
                          (rows mid)))) by apply (Forall_take_filter _).
  rewrite (count_take_other _ 0 1), (count_take_other _ 1 0);
    [|intros v Ha Hb; by eapply eq_num_0_1|apply eq_num_0_1].
  cbn [length]. lia.
Qed.

Lemma severity_to_balanced_counts_witness :
  ∃ out, target_binarizer_balancer severities = Some out ∧
    count_label "Severity4" 1 out
    = Z.min (count_rows (λ r, eq_num 4 (r !! "Severity")) severities) 110000 ∧
    count_label "Severity4" 0 out
    = Z.min (count_rows (λ r, negb (eq_num 4 (r !! "Severity"))) severities)
            110000 ∧
    Z.of_nat (length (rows out))
    = count_label "Severity4" 0 out + count_label "Severity4" 1 out.
Proof.
  apply (severity_to_balanced_counts severities).
  apply (bool_decide_unpack _). vm_compute. exact I.
Defined.

(** ** The stages, row by row *)














(** ** The feature selection *)







(** ** The four accidents *)





Example sample_of_raw_accidents :
  (λ out : DataFrame * DataFrame,
     (λ r : row, (r !! "Severity4", r !! "Rain", r !! "Snow", r !! "Day",
                  r !! "Wind_Direction", r !! "Precipitation(in)"))
     <$> rows out.2) <$> preprocess raw_accidents
  = Some [(Some (num 0), Some (num 0), Some (num 1), Some (num 365),
           Some (VStr "N"), Some (num 2));
          (Some (num 1), Some (num 1), Some (num 0), Some (num 60),
           Some (VStr "S"), Some (num 2))].
Proof. vm_compute. reflexivity. Qed.

(** ** One drop of ten labels *)



(** The selection on the two rows: two streets, one city, no county. *)
Example selection_of_balanced :
  (λ out : list (string * nat) * DataFrame, (out.1, columns out.2))
  <$> feature_selection balanced balanced
  = Some ([("Street", 2%nat); ("City", 1%nat); ("County", 0%nat);
           ("Zipcode", 0%nat); ("Airport_Code", 0%nat); ("State", 1%nat)],
          ["Rain"; "Year"; "Severity4"]).
Proof. vm_compute. reflexivity. Qed.
